(** * The membership registry of mdsynthesis/core/bundle.py

    A shallow embedding of [_CollectionBase], [_BundleBackend] and [Bundle].
    Python methods become functions in a state-and-exception monad over the
    receiving object; an object is a record of its attributes, and an
    attribute that no code of the class ever binds is an [option] that
    [__init__] leaves at [None].  An exception does not undo the mutations
    made before it was raised, so a computation returns the state together
    with its outcome. *)

From stdpp Require Import base option list strings gmap sorting.

Local Open Scope Z_scope.

(** ** Exceptions, outcomes and the method monad *)

Inductive exn :=
  | AttributeError (attr : string)
  | TypeError (what : string)
  | IndexError
  | ValueError
  | KeyError (key : string)
  | NoSuchNodeError (node : string)
  | NodeError (node : string)
  | NotImplementedError
  | SyntaxError.

Inductive outcome (A : Type) :=
  | Return (a : A)
  | Raise (e : exn).
Arguments Return {A} a.
Arguments Raise {A} e.

Definition py (S A : Type) : Type := S → S * outcome A.

Global Instance py_ret {S} : MRet (py S) := λ A a s, (s, Return a).

Global Instance py_bind {S} : MBind (py S) := λ A B k m s,
  match m s with
  | (s', Return a) => k a s'
  | (s', Raise e) => (s', Raise e)
  end.

Definition raise {S A} (e : exn) : py S A := λ s, (s, Raise e).
Definition gets {S A} (f : S → A) : py S A := λ s, (s, Return (f s)).
Definition modify {S} (f : S → S) : py S unit := λ s, (f s, Return tt).
Definition lift_outcome {S A} (o : outcome A) : py S A := λ s, (s, o).

(** [self.attr] for an attribute that may never have been bound. *)
Definition getattr {S A} (attr : string) (field : S → option A) : py S A :=
  o ← gets field;
  match o with
  | Some a => mret a
  | None => raise (AttributeError attr)
  end.

(** A method of an attribute object run on the enclosing object. *)
Definition zoom {S T A} (get : S → T) (set : T → S → S) (m : py T A) : py S A :=
  λ s, let '(t, o) := m (get s) in (set t s, o).

(** [for x in xs: acc = body(x, acc)], left to right, stopping at the first
    exception. *)
Section loops.
Context {S A B : Type} (body : A → B → py S B).

Fixpoint for_each (xs : list A) (acc : B) : py S B :=
  match xs with
  | [] => mret acc
  | x :: xs' => acc' ← body x acc; for_each xs' acc'
  end.
End loops.

(** What Python allows between the brackets of [l[k]] here: an integer, or
    (as [add_member] does) a list. *)
Inductive subscript :=
  | IntIndex (i : Z)
  | ListIndex (l : list Z).

(** [list.__getitem__]: the position addressed by [k] in a list of length
    [len]; negative integers count from the end. *)
Definition list_getitem (len : nat) (k : subscript) : outcome nat :=
  match k with
  | IntIndex i =>
      let i' := if bool_decide (i < 0) then i + Z.of_nat len else i in
      if bool_decide (0 ≤ i' < Z.of_nat len) then Return (Z.to_nat i')
      else Raise IndexError
  | ListIndex _ => Raise (TypeError "list indices must be integers, not list")
  end.

(** [l.index(x)]: position of the first element equal to [x]. *)
Definition list_index `{EqDecision A} (x : A) (l : list A) : option Z :=
  (λ p, Z.of_nat p.1) <$> list_find (λ y, y = x) l.

(** [enumerate(l)], with the row number a table iterator attaches to each
    row ([row.nrow]). *)
Definition enumerate {A} (l : list A) : list (Z * A) :=
  zip (seqZ 0 (Z.of_nat (length l))) l.

(** ** Containers and member records *)

Inductive kind := Sim | Group.

Module Container.
(** The identity fields of a [mds.Container]. *)
Record t := mk {
  uuid : string;
  name : string;
  containertype : kind;
  location : string
}.
End Container.

Module Member.
(** One row of the members table: the dict [newmem] of [add_member] and a
    row of the [members] node alike. *)
Record t := mk {
  uuid : string;
  name : string;
  containertype : kind;
  abspath : string
}.

Definition set_abspath (p : string) (r : t) : t :=
  mk (uuid r) (name r) (containertype r) p.
End Member.

Global Instance kind_eq_dec : EqDecision kind.
Proof. solve_decision. Defined.
Global Instance Container_eq_dec : EqDecision Container.t.
Proof. solve_decision. Defined.
Global Instance Member_eq_dec : EqDecision Member.t.
Proof. solve_decision. Defined.

(** ** The collaborators outside this module *)

(** [os.path.abspath], [os.path.exists] on a string, and
    [filesystem.path2container]: opaque functions of the path. *)
Class Filesystem := {
  os_path_abspath : string → string;
  os_path_exists : string → bool;
  path2container : string → list Container.t
}.

(** The part of PyTables the backend calls, on the rows of one table. *)
Module tables.
(** An open file; the only node the backend touches is [/members]. *)
Record File := mkFile { members : option (list Member.t) }.

(** [handle.get_node('/', 'members')] *)
Definition get_node (h : File) : outcome (list Member.t) :=
  match members h with
  | Some rows => Return rows
  | None => Raise (NoSuchNodeError "/members")
  end.

(** [table.remove()] removes the node from the file. *)
Definition remove : py File unit :=
  λ h, match members h with
       | Some _ => (mkFile None, Return tt)
       | None => (h, Raise (NoSuchNodeError "/members"))
       end.

(** [handle.create_table('/', 'members', description, 'members')] makes an
    empty table; the name must be free. *)
Definition create_table (description : list string) : py File unit :=
  λ h, match members h with
       | Some _ => (h, Raise (NodeError "/members"))
       | None => (mkFile (Some []), Return tt)
       end.

(** [table.remove_row(n)].  PyTables refuses to delete all the rows of a
    table (the limitation [del_member] works around). *)
Definition remove_row (n : Z) : py File unit :=
  λ h, match members h with
       | None => (h, Raise (NoSuchNodeError "/members"))
       | Some rows =>
           if bool_decide (0 ≤ n < Z.of_nat (length rows)) then
             if bool_decide (length rows ≤ 1)%nat then (h, Raise NotImplementedError)
             else (mkFile (Some (delete (Z.to_nat n) rows)), Return tt)
           else (h, Raise IndexError)
       end.

(** The characters that stand for themselves between the quotes of a
    string literal: printable ASCII other than the quote and the
    backslash. *)
Definition plain_char (c : Ascii.ascii) : bool :=
  let n := Z.of_N (Ascii.N_of_ascii c) in
  bool_decide (32 ≤ n ≤ 126 ∧ n ≠ 39 ∧ n ≠ 92).

Fixpoint plain (s : string) : bool :=
  match s with
  | EmptyString => true
  | String c s' => plain_char c && plain s'
  end.

(** [Table.where] hands its condition, a string, to the expression compiler
    of PyTables, which rejects it with an exception or turns it into a test
    on rows.  The compiler is outside this code; what is known of it here
    is what [uuid=='...'] means when the text between the quotes is made of
    plain characters. *)
Class Conditions := {
  compile_condition : string → outcome (Member.t → bool);
  compile_uuid_literal literal :
    plain literal = true →
    compile_condition ("uuid=='" +:+ literal +:+ "'")
    = Return (λ row, bool_decide (Member.uuid row = literal))
}.

(** [table.where(condition)]: the rows the compiled condition selects, with
    their row numbers, in table order. *)
Definition where_ `{Conditions} (condition : string) (rows : list Member.t)
    : outcome (list (Z * Member.t)) :=
  match compile_condition condition with
  | Return selects => Return (filter (λ p, selects p.2 = true) (enumerate rows))
  | Raise e => Raise e
  end.

(** [x[path]] for a row [x]: the columns are the keys of a member record;
    the kind is stored as its name. *)
Definition column (path : string) (x : Member.t) : outcome string :=
  if bool_decide (path = "uuid") then Return (Member.uuid x)
  else if bool_decide (path = "name") then Return (Member.name x)
  else if bool_decide (path = "containertype") then
    Return (match Member.containertype x with Sim => "Sim" | Group => "Group" end)
  else if bool_decide (path = "abspath") then Return (Member.abspath x)
  else Raise (KeyError path).
End tables.

(** ** [_BundleBackend] *)

Inductive access_mode := Released | Shared | Exclusive.
Inductive level := DEBUG | INFO | WARNING.

Module _BundleBackend.
(** The attributes the methods of the class read.  [__init__] binds
    [table] only; [handle], [_Members] and [logger] are read by the methods
    taken over from [persistence.GroupFile] and bound by no code of the
    class.  [access] is the state of the transaction boundary. *)
Record t := mk {
  table : list Member.t;
  handle : option tables.File;
  _Members : option (list string);
  logger : option (list (level * string));
  access : access_mode
}.

Definition set_table (v : list Member.t) (self : t) : t :=
  mk v (handle self) (_Members self) (logger self) (access self).
Definition set_handle (v : tables.File) (self : t) : t :=
  mk (table self) (Some v) (_Members self) (logger self) (access self).
Definition set_logger (v : list (level * string)) (self : t) : t :=
  mk (table self) (handle self) (_Members self) (Some v) (access self).
Definition set_access (v : access_mode) (self : t) : t :=
  mk (table self) (handle self) (_Members self) (logger self) v.

Definition __init__ : t := mk [] None None None Released.

(** Modelled from the spec: [File._write_state], the decorator of section
    4.1 and 5 (its definition lives in the persistence module): exclusive
    access is acquired, the whole body runs, and access is released on
    every exit path, an exception of the body included. *)
Definition _write_state {A} (func : py t A) : py t A := λ self,
  let '(self', out) := func (set_access Exclusive self) in
  (set_access Released self', out).

(** Modelled from the spec: [File._read_state], the same boundary with
    shared access. *)
Definition _read_state {A} (func : py t A) : py t A := λ self,
  let '(self', out) := func (set_access Shared self) in
  (set_access Released self', out).

(** A call on the object [self.handle]. *)
Definition on_handle {A} (m : py tables.File A) : py t A :=
  h ← getattr "handle" handle;
  zoom (λ _, h) set_handle m.

(** [self.logger.info(msg)] *)
Definition logger_info (msg : string) : py t unit :=
  records ← getattr "logger" logger;
  modify (set_logger (records ++ [(INFO, msg)])).

Definition str (uid : string) : string := uid.

Section methods.
Context `{Filesystem}.

(** lines 59-85 *)
Definition add_member_body (uuid name : string) (containertype : kind)
    (location : string) : py t unit :=
  tbl ← gets table;
  index ← for_each (λ item index,
             if bool_decide (Member.uuid item = uuid) then
               match list_index item tbl with
               | Some i => mret (index ++ [i])
               | None => raise ValueError
               end
             else mret index) tbl [];
  if bool_decide (index ≠ []) then
    i ← lift_outcome (list_getitem (length tbl) (ListIndex index));
    modify (set_table
              (alter (Member.set_abspath (os_path_abspath location)) i tbl))
  else
    let newmem := Member.mk uuid name containertype (os_path_abspath location) in
    modify (λ self, set_table (table self ++ [newmem]) self).

Definition add_member (uuid name : string) (containertype : kind)
    (location : string) : py t unit :=
  _write_state (add_member_body uuid name containertype location).
End methods.

(** [table.remove()] followed by [create_table]: lines 104-105 and
    122-123. *)
Definition recreate : py t unit :=
  on_handle tables.remove ;;
  h ← getattr "handle" handle;
  description ← getattr "_Members" _Members;
  zoom (λ _, h) set_handle (tables.create_table description).

(** The row numbers collected by the two nested loops of lines 113-117. *)
Definition matching_rows (uuids : gset string) (table : list Member.t) : list Z :=
  foldl (λ rowlist row,
           foldl (λ rowlist uuid,
                    if bool_decide (Member.uuid row.2 = uuid)
                    then rowlist ++ [row.1] else rowlist)
                 rowlist (elements uuids))
        [] (enumerate table).

(** lines 88-131; [purge] is the keyword [all]. *)
Definition del_member_body (uuid : list string) (purge : bool) : py t unit :=
  h ← getattr "handle" handle;
  table ← lift_outcome (tables.get_node h);
  if purge then recreate
  else
    let uuids : gset string := list_to_set (str <$> uuid) in
    let rowlist := matching_rows uuids table in
    if bool_decide (length rowlist = length table) then recreate
    else
      let rowlist := merge_sort Z.le rowlist in
      for_each (λ i j, on_handle (tables.remove_row (i - j)) ;; mret (j + 1))
               rowlist 0 ;;
      mret tt.

Definition del_member (uuid : list string) (purge : bool) : py t unit :=
  _write_state (del_member_body uuid purge).

Section readers.
Context `{tables.Conditions}.

(** lines 134-159; [None] is Python's [None].  Line 152 splices the uuid
    into the text of the condition. *)
Definition get_member_body (uuid : string) : py t (option Member.t) :=
  h ← getattr "handle" handle;
  table ← lift_outcome (tables.get_node h);
  found ← lift_outcome (tables.where_ ("uuid=='" +:+ uuid +:+ "'") table);
  let rownum := fst <$> found in
  match rownum with
  | n :: _ =>
      match table !! Z.to_nat n with
      | Some memberinfo => mret (Some memberinfo)
      | None => raise IndexError
      end
  | [] =>
      logger_info "No such member in this Group." ;;
      mret None
  end.

Definition get_member (uuid : string) : py t (option Member.t) :=
  _read_state (get_member_body uuid).
End readers.

(** [[ x[col] for x in table.iterrows() ]] of lines 162-212. *)
Definition iterrows {A} (col : Member.t → outcome A) : py t (list A) :=
  h ← getattr "handle" handle;
  table ← lift_outcome (tables.get_node h);
  for_each (λ x acc, v ← lift_outcome (col x); mret (acc ++ [v])) table [].

Definition get_members_uuid : py t (list string) :=
  _read_state (iterrows (λ x, Return (Member.uuid x))).

Definition get_members_name : py t (list string) :=
  _read_state (iterrows (λ x, Return (Member.name x))).

Definition get_members_containertype : py t (list kind) :=
  _read_state (iterrows (λ x, Return (Member.containertype x))).

Definition get_members_location (path : string) : py t (list string) :=
  _read_state (iterrows (tables.column path)).
End _BundleBackend.

(** ** The arguments of [add] *)

(** The objects the two [add] methods tell apart: a path string, a
    [Container], a list, a tuple, a [Bundle] and an [aggregators.Members]
    with the objects it holds.  The [Bundle] class defines neither
    [__iter__] nor [__getitem__], so a Bundle carries nothing an [add] could
    read. *)
#[warnings="-register-all"]
Inductive pyval :=
  | VStr (s : string)
  | VContainer (c : Container.t)
  | VList (l : list pyval)
  | VTuple (l : list pyval)
  | VBundle
  | VMembers (l : list pyval).

(** Modelled from the spec: iterating an [aggregators.Members] object, a
    class of the aggregators module, yields the members it holds (section
    4.2, item (a): a Collection passed to [add] has its members added). *)
Definition Members_iter (members : list pyval) : list pyval := members.

(** [os.path.exists(x)]: [os.stat] raises [TypeError] for an object that is
    not a path, and [exists] only catches [os.error]. *)
Definition os_path_exists_obj `{Filesystem} (x : pyval) : outcome bool :=
  match x with
  | VStr s => Return (os_path_exists s)
  | _ => Raise (TypeError "coercing to Unicode: need string or buffer")
  end.

(** [filesystem.path2container(x)], called only where [os.path.exists(x)]
    returned [True]. *)
Definition path2container_obj `{Filesystem} (x : pyval) : list Container.t :=
  match x with
  | VStr s => path2container s
  | _ => []
  end.

(** ** [Bundle] *)

Module Bundle.
(** [__init__] binds [backend]; [_uuids] and [_containers] are read by [add]
    and bound nowhere in the class. *)
Record t := mk {
  backend : _BundleBackend.t;
  _uuids : option (list string);
  _containers : option (list Container.t)
}.

Definition set_uuids (v : list string) (self : t) : t :=
  mk (backend self) (Some v) (_containers self).
Definition set_containers (v : list Container.t) (self : t) : t :=
  mk (backend self) (_uuids self) (Some v).

(** lines 250-253 and 257-260 *)
Definition add_new (container : Container.t) (outconts : list Container.t)
    : py t (list Container.t) :=
  let uuid := Container.uuid container in
  uuids ← getattr "_uuids" _uuids;
  if bool_decide (uuid ∈ uuids) then mret outconts
  else
    uuids ← getattr "_uuids" _uuids;
    modify (set_uuids (uuids ++ [uuid])) ;;
    mret (outconts ++ [container]).

(** line 262 *)
Definition extend (outconts : list Container.t) : py t unit :=
  containers ← getattr "_containers" _containers;
  modify (set_containers (containers ++ outconts)).

Section methods.
Context `{Filesystem}.

(** One turn of the loop of lines 246-260; the branch for a list is the
    recursive call [self.add( *container)] with its own [outconts]. *)
Fixpoint add_item (container : pyval) (outconts : list Container.t)
    {struct container} : py t (list Container.t) :=
  match container with
  | VList l =>
      inner ← for_each add_item l [];
      extend inner ;;
      mret outconts
  | VContainer c => add_new c outconts
  | _ =>
      found ← lift_outcome (os_path_exists_obj container);
      if found : bool then for_each add_new (path2container_obj container) outconts
      else mret outconts
  end.

(** lines 244-262 *)
Definition add (containers : list pyval) : py t unit :=
  outconts ← for_each add_item containers [];
  extend outconts.

(** lines 224-241 *)
Definition __init__ (containers : list pyval) : t * outcome unit :=
  add containers (mk _BundleBackend.__init__ None None).
End methods.

(** lines 264-268: [list(self._containers)], a copy of the members. *)
Definition _list : py t (list Container.t) :=
  getattr "_containers" _containers.

(** lines 270-271.  The method called is [self.list], and the class only
    has [_list]: no class and no instance binds the name. *)
Definition __repr__ : py t string :=
  contents ← getattr "list" (λ _ : t, @None string);
  mret ("<Bundle(" +:+ contents +:+ ")>").
End Bundle.

(** ** [_CollectionBase] *)

Module _CollectionBase.
(** An instance of a class with this interface: [add] reads [self.backend]
    only. *)
Record t := mk { backend : _BundleBackend.t }.

Section methods.
Context `{Filesystem}.

(** lines 40-41 *)
Definition register (outconts : list Container.t) : py t unit :=
  for_each (λ container _,
      zoom backend (λ b _, mk b)
        (_BundleBackend.add_member (Container.uuid container)
           (Container.name container) (Container.containertype container)
           (Container.location container)))
    outconts tt.

(** One turn of the loop of lines 30-38.  Unpacking [*container] iterates the
    object, which a Bundle does not support. *)
Fixpoint add_item (container : pyval) (outconts : list Container.t)
    {struct container} : py t (list Container.t) :=
  match container with
  | VList l | VTuple l =>
      inner ← for_each add_item l [];
      register inner ;;
      mret outconts
  | VMembers members =>
      inner ← for_each add_item (Members_iter members) [];
      register inner ;;
      mret outconts
  | VBundle => raise (TypeError "add() argument after * must be a sequence, not Bundle")
  | VContainer c => mret (outconts ++ [c])
  | VStr s =>
      found ← lift_outcome (os_path_exists_obj container);
      if found : bool then mret (outconts ++ path2container_obj container)
      else mret outconts
  end.

(** lines 20-41 *)
Definition add (containers : list pyval) : py t unit :=
  outconts ← for_each add_item containers [];
  register outconts.
End methods.
End _CollectionBase.

(** ** Notions used in the statements *)

(** The list [index] that line 75 of [add_member] builds. *)
Definition index_of (uuid : string) (tbl : list Member.t) : list Z :=
  foldl (λ index item,
           if bool_decide (Member.uuid item = uuid)
           then index ++ [default 0 (list_index item tbl)] else index)
        [] tbl.

(** The row numbers, counted from [k], of the rows with a requested uuid. *)
Fixpoint rows_from (k : Z) (uuids : gset string) (rows : list Member.t) : list Z :=
  match rows with
  | [] => []
  | row :: rows' =>
      (if bool_decide (Member.uuid row ∈ uuids) then [k] else [])
      ++ rows_from (k + 1) uuids rows'
  end.

(** The rows of a table that a removal of [uuid] keeps. *)
Definition kept (uuid : list string) (rows : list Member.t) : list Member.t :=
  filter (λ row, Member.uuid row ∉ uuid) rows.

(** [self.handle] is an open file whose [/members] table holds [rows]. *)
Definition stores (self : _BundleBackend.t) (rows : list Member.t) : Prop :=
  _BundleBackend.handle self = Some (tables.mkFile (Some rows)).

(** The object with its [/members] table replaced by [rows]. *)
Definition with_rows (rows : list Member.t) (self : _BundleBackend.t)
    : _BundleBackend.t :=
  _BundleBackend.set_handle (tables.mkFile (Some rows)) self.

(** The arguments the docstring of [Bundle.__init__] names: containers,
    paths, and lists of these. *)
Fixpoint documented (container : pyval) : bool :=
  match container with
  | VStr _ | VContainer _ => true
  | VList l => forallb documented l
  | VTuple _ | VBundle | VMembers _ => false
  end.

(** A Bundle as [__init__] leaves it before calling [add]. *)
Definition fresh_bundle : Bundle.t := Bundle.mk _BundleBackend.__init__ None None.

(** The record [add_member] stores for a container. *)
Definition member_of `{Filesystem} (c : Container.t) : Member.t :=
  Member.mk (Container.uuid c) (Container.name c) (Container.containertype c)
    (os_path_abspath (Container.location c)).



(** The four listings of a backend are those of the row sequence [rows]:
    same length, and position by position the fields of one row. *)
Definition listed_in_order (self : _BundleBackend.t) (rows : list Member.t) : Prop :=
  ∃ (ids names : list string) (kinds : list kind) (locations : list string),
    (_BundleBackend.get_members_uuid self).2 = Return ids
    ∧ (_BundleBackend.get_members_name self).2 = Return names
    ∧ (_BundleBackend.get_members_containertype self).2 = Return kinds
    ∧ (_BundleBackend.get_members_location "abspath" self).2 = Return locations
    ∧ length ids = length rows ∧ length names = length rows
    ∧ length kinds = length rows ∧ length locations = length rows
    ∧ ∀ (i : nat) row, rows !! i = Some row →
        ids !! i = Some (Member.uuid row) ∧ names !! i = Some (Member.name row)
        ∧ kinds !! i = Some (Member.containertype row)
        ∧ locations !! i = Some (Member.abspath row).

(** ** Sample objects *)

(** A sample filesystem: the working directory is [/home/user], and one
    directory, [/sims], holds the state files of two containers. *)
Definition sample_fs : Filesystem := {|
  os_path_abspath p :=
    if String.prefix "/" p then p
    else if String.prefix "./" p
         then "/home/user/" +:+ String.substring 2 (String.length p - 2) p
         else "/home/user/" +:+ p;
  os_path_exists p := bool_decide (p = "/sims");
  path2container p :=
    if bool_decide (p = "/sims")
    then [Container.mk "x" "X" Sim "/sims/x"; Container.mk "y" "Y" Group "/sims/y"]
    else []
|}.

(** A sample condition compiler: it accepts [uuid=='...'] with plain
    characters between the quotes (the closing quote has code 39) and
    rejects every other text. *)
Fixpoint strip_prefix (prefix s : string) : option string :=
  match prefix, s with
  | EmptyString, _ => Some s
  | String a prefix', String b s' =>
      if bool_decide (a = b) then strip_prefix prefix' s' else None
  | String _ _, EmptyString => None
  end.

Fixpoint literal (s : string) : option string :=
  match s with
  | EmptyString => None
  | String c s' =>
      if bool_decide (Z.of_N (Ascii.N_of_ascii c) = 39)
      then (if bool_decide (s' = EmptyString) then Some EmptyString else None)
      else if tables.plain_char c then String c <$> literal s'
      else None
  end.

Definition sample_compile (condition : string) : outcome (Member.t → bool) :=
  match strip_prefix "uuid=='" condition ≫= literal with
  | Some lit => Return (λ row, bool_decide (Member.uuid row = lit))
  | None => Raise SyntaxError
  end.

Definition sample_conditions : tables.Conditions.
Proof.
  refine {| tables.compile_condition := sample_compile |}.
  intros lit Hplain. unfold sample_compile.
  change (strip_prefix "uuid=='" ("uuid=='" +:+ lit +:+ "'"))
    with (Some (lit +:+ "'")).
  change (Some (lit +:+ "'") ≫= literal) with (literal (lit +:+ "'")).
  replace (literal (lit +:+ "'")) with (Some lit); [reflexivity|].
  induction lit as [|c lit IH]; [reflexivity|].
  simpl in Hplain. apply andb_prop in Hplain as [Hc Hlit].
  change (String c lit +:+ "'") with (String c (lit +:+ "'")).
  cbn [literal].
  rewrite bool_decide_false
    by (unfold tables.plain_char in Hc; apply bool_decide_eq_true in Hc; lia).
  rewrite Hc, <- (IH Hlit). reflexivity.
Defined.

Definition container_A : Container.t := Container.mk "u1" "A" Sim "./data".

Definition rows_123 : list Member.t :=
  [Member.mk "1" "A" Sim "/a"; Member.mk "2" "B" Group "/b"; Member.mk "3" "C" Sim "/c"].

(** A backend object with the attributes of a state file: an open handle
    whose members table holds [rows], the table description and a logger. *)
Definition state_file (rows : list Member.t) : _BundleBackend.t :=
  _BundleBackend.mk [] (Some (tables.mkFile (Some rows)))
    (Some ["uuid"; "name"; "containertype"; "abspath"]) (Some []) Released.

(** A Bundle on which both lists are bound and empty. *)
Definition empty_bundle : Bundle.t :=
  Bundle.mk _BundleBackend.__init__ (Some []) (Some []).

(** ** Notions used for the further properties *)

(** One backend object grows into another: the stored records stay where
    they are and new ones come after them, the file behind the handle is
    the same, and uuids that were unique stay unique. *)
Definition extends (b b' : _BundleBackend.t) : Prop :=
  _BundleBackend.table b `prefix_of` _BundleBackend.table b'
  ∧ _BundleBackend.handle b' = _BundleBackend.handle b
  ∧ (NoDup (Member.uuid <$> _BundleBackend.table b) →
     NoDup (Member.uuid <$> _BundleBackend.table b')).

(** The first row of a table that carries [uuid]. *)
Definition first_with (uuid : string) (rows : list Member.t) : option Member.t :=
  head (filter (λ row, Member.uuid row = uuid) rows).

(** [self.handle] is an open file without a [/members] node. *)
Definition no_members_node (self : _BundleBackend.t) : Prop :=
  _BundleBackend.handle self = Some (tables.mkFile None).

(** The backend objects that calls of the methods of the class produce from
    a new [_BundleBackend()]. *)
Inductive reachable `{Filesystem} `{tables.Conditions} : _BundleBackend.t → Prop :=
  | reach_init : reachable _BundleBackend.__init__
  | reach_add_member uuid name containertype location self :
      reachable self →
      reachable (_BundleBackend.add_member uuid name containertype location self).1
  | reach_del_member uuid purge self :
      reachable self → reachable (_BundleBackend.del_member uuid purge self).1
  | reach_get_member uuid self :
      reachable self → reachable (_BundleBackend.get_member uuid self).1
  | reach_get_members_uuid self :
      reachable self → reachable (_BundleBackend.get_members_uuid self).1
  | reach_get_members_name self :
      reachable self → reachable (_BundleBackend.get_members_name self).1
  | reach_get_members_containertype self :
      reachable self → reachable (_BundleBackend.get_members_containertype self).1
  | reach_get_members_location path self :
      reachable self → reachable (_BundleBackend.get_members_location path self).1.

(** The containers of [cs] that a seen-set [us] lets through: those whose
    uuid is neither in [us] nor carried by an earlier one of them. *)
Fixpoint fresh (us : list string) (cs : list Container.t) : list Container.t :=
  match cs with
  | [] => []
  | c :: cs' =>
      if bool_decide (Container.uuid c ∈ us) then fresh us cs'
      else c :: fresh (us ++ [Container.uuid c]) cs'
  end.

(** The seen-set and the members of a Bundle agree, counting the containers
    [pending] in an [outconts] not yet appended: both lists are bound, no
    uuid is recorded twice, and the recorded uuids are those of the members
    and the pending containers. *)
Definition synced (self : Bundle.t) (pending : list Container.t) : Prop :=
  ∃ us cs,
    Bundle._uuids self = Some us ∧ Bundle._containers self = Some cs
    ∧ NoDup us ∧ us ≡ₚ Container.uuid <$> (cs ++ pending).

(** The containers an argument of [Bundle.add] stands for. *)
Fixpoint resolved `{Filesystem} (container : pyval) : list Container.t :=
  match container with
  | VContainer c => [c]
  | VStr s => if os_path_exists s then path2container s else []
  | VList l => flat_map resolved l
  | VTuple _ | VBundle | VMembers _ => []
  end.

(** The invariant of the loop of [add]: seen-set and members agree up to
    the pending containers, and the members known at the start are still
    in place. *)
Definition in_step (members0 extra : list Container.t)
    (self : Bundle.t) (out : list Container.t) : Prop :=
  synced self (extra ++ out)
  ∧ ∃ cs, Bundle._containers self = Some cs ∧ members0 `prefix_of` cs.

(** What a turn of the loop that returns has done to the seen-set. *)
Definition records_all `{Filesystem} (container : pyval) : Prop :=
  ∀ out self self' out' us,
    Bundle.add_item container out self = (self', Return out') →
    Bundle._uuids self = Some us →
    documented container = true
    ∧ ∃ us', Bundle._uuids self' = Some us' ∧ us ⊆ us'
             ∧ ∀ c, c ∈ resolved container → Container.uuid c ∈ us'.

(** The containers an argument of [_CollectionBase.add] puts into the
    [outconts] of the call it is given to. *)
Definition direct `{Filesystem} (container : pyval) : list Container.t :=
  match container with
  | VContainer c => [c]
  | VStr s => if os_path_exists s then path2container s else []
  | VList _ | VTuple _ | VBundle | VMembers _ => []
  end.

(** The containers registered while [_CollectionBase.add] handles one
    argument, in the order of their registration: those of a recursive
    call, its own recursive calls first. *)
Fixpoint nested_order `{Filesystem} (container : pyval) : list Container.t :=
  match container with
  | VList l | VTuple l | VMembers l =>
      flat_map nested_order l ++ flat_map direct l
  | VStr _ | VContainer _ | VBundle => []
  end.

(** The order in which one call of [_CollectionBase.add] registers. *)
Definition registration_order `{Filesystem} (containers : list pyval)
    : list Container.t :=
  flat_map nested_order containers ++ flat_map direct containers.

(** No Bundle among the arguments, at any depth. *)
Fixpoint registrable (container : pyval) : bool :=
  match container with
  | VBundle => false
  | VList l | VTuple l | VMembers l => forallb registrable l
  | VStr _ | VContainer _ => true
  end.

(** The backend of one collection grows into that of another. *)
Definition collection_extends (coll coll' : _CollectionBase.t) : Prop :=
  extends (_CollectionBase.backend coll) (_CollectionBase.backend coll').

(** What one turn of the loop of [_CollectionBase.add] does when the
    containers of its recursive calls are new and distinct. *)
Definition registers_in_order `{Filesystem} (container : pyval) : Prop :=
  ∀ out (coll : _CollectionBase.t),
    registrable container = true →
    NoDup ((Member.uuid <$> _BundleBackend.table (_CollectionBase.backend coll))
           ++ (Container.uuid <$> nested_order container)) →
    ∃ coll',
      _CollectionBase.add_item container out coll
      = (coll', Return (out ++ direct container))
      ∧ _BundleBackend.table (_CollectionBase.backend coll')
        = _BundleBackend.table (_CollectionBase.backend coll)
          ++ (member_of <$> nested_order container)
      ∧ _BundleBackend.handle (_CollectionBase.backend coll')
        = _BundleBackend.handle (_CollectionBase.backend coll).

(** * Properties *)

(** ** The monad and the loops *)

Lemma for_each_app {S A B} (body : A → B → py S B) xs ys acc s :
  for_each body (xs ++ ys) acc s =
  match for_each body xs acc s with
  | (s', Return acc') => for_each body ys acc' s'
  | (s', Raise e) => (s', Raise e)
  end.
Proof.
  revert acc s. induction xs as [|x xs IH]; intros acc s; simpl; [done|].
  unfold mbind, py_bind. destruct (body x acc s) as [s' [acc'|e]]; [apply IH|done].
Qed.

Lemma py_bind_unfold {S A B} (m : py S A) (k : A → py S B) (s : S) :
  (m ≫= k) s = match m s with
               | (s', Return a) => k a s'
               | (s', Raise e) => (s', Raise e)
               end.
Proof. done. Qed.

Lemma getattr_some {S A} attr (field : S → option A) (s : S) a :
  field s = Some a → getattr attr field s = (s, Return a).
Proof. unfold getattr. rewrite py_bind_unfold. unfold gets. by intros ->. Qed.

Lemma getattr_none {S A} attr (field : S → option A) (s : S) :
  field s = None → getattr attr field s = (s, Raise (AttributeError attr)).
Proof. unfold getattr. rewrite py_bind_unfold. unfold gets. by intros ->. Qed.

(** A loop whose body neither raises nor touches the state is a fold. *)
Lemma for_each_pure {S A B} (body : A → B → py S B) (f : B → A → B) xs :
  ∀ acc s,
  (∀ x acc s, x ∈ xs → body x acc s = (s, Return (f acc x))) →
  for_each body xs acc s = (s, Return (foldl f acc xs)).
Proof.
  induction xs as [|x xs IH]; intros acc s Hbody; simpl; [done|].
  unfold mbind, py_bind. rewrite Hbody by left.
  apply IH. intros. apply Hbody. by right.
Qed.

Lemma list_index_elem_of `{EqDecision A} (x : A) (l : list A) :
  x ∈ l → is_Some (list_index x l).
Proof.
  intros Hx. unfold list_index.
  destruct (list_find_elem_of (λ y, y = x) l x Hx eq_refl) as [p ->]. by eexists.
Qed.

Lemma length_enumerate {A} (l : list A) : length (enumerate l) = length l.
Proof. unfold enumerate. rewrite length_zip, length_seqZ. lia. Qed.

(** ** [add_member] *)

Section add_member_facts.
Import _BundleBackend.
Context `{Filesystem}.

Lemma foldl_index_nil uuid (tbl l : list Member.t) acc :
  foldl (λ index item,
           if bool_decide (Member.uuid item = uuid)
           then index ++ [default 0 (list_index item tbl)] else index) acc l = []
  ↔ acc = [] ∧ uuid ∉ Member.uuid <$> l.
Proof.
  revert acc. induction l as [|r l IH]; intros acc; simpl.
  - split; [intros ->; split; [done|apply not_elem_of_nil]|by intros [-> _]].
  - rewrite IH. case_bool_decide as Hr.
    + split.
      * intros [Happ _]. by destruct acc.
      * intros [_ Hnot]. exfalso. apply Hnot. rewrite <- Hr. left.
    + rewrite not_elem_of_cons.
      split; [intros [? ?]; repeat split; auto; congruence|tauto].
Qed.

Lemma index_of_nil uuid tbl :
  index_of uuid tbl = [] ↔ uuid ∉ Member.uuid <$> tbl.
Proof. unfold index_of. rewrite foldl_index_nil. tauto. Qed.

(** The comprehension of line 75 never raises: every item it looks up is in
    the list. *)
Lemma index_loop uuid (tbl : list Member.t) (self : t) :
  for_each (λ item index,
      if bool_decide (Member.uuid item = uuid) then
        match list_index item tbl with
        | Some i => mret (index ++ [i])
        | None => raise ValueError
        end
      else mret index) tbl [] self
  = (self, Return (index_of uuid tbl)).
Proof.
  unfold index_of. apply for_each_pure.
  intros item index s Hitem. case_bool_decide; [|done].
  by destruct (list_index_elem_of item tbl Hitem) as [i ->].
Qed.

(** An uuid already in the table: the subscript [self.table[index]] is
    given a list and raises; nothing has been written. *)
Lemma add_member_present uuid name containertype location (self : t) :
  uuid ∈ Member.uuid <$> table self →
  add_member uuid name containertype location self
  = (set_access Released self,
     Raise (TypeError "list indices must be integers, not list")).
Proof.
  intros Hin. unfold add_member, _write_state, add_member_body.
  unfold mbind at 1, py_bind, gets. unfold mbind at 1, py_bind.
  cbn [table set_access]. rewrite index_loop.
  rewrite bool_decide_true by (by rewrite index_of_nil; intros []).
  done.
Qed.

(** A new uuid: one record is appended. *)
Lemma add_member_absent uuid name containertype location (self : t) :
  uuid ∉ Member.uuid <$> table self →
  add_member uuid name containertype location self
  = (set_access Released
       (set_table (table self ++
          [Member.mk uuid name containertype (os_path_abspath location)]) self),
     Return tt).
Proof.
  intros Hin. unfold add_member, _write_state, add_member_body.
  unfold mbind at 1, py_bind, gets. unfold mbind at 1, py_bind.
  cbn [table set_access]. rewrite index_loop.
  rewrite bool_decide_false by (by rewrite index_of_nil; intros []).
  done.
Qed.

(** [add_member] never touches the file behind [self.handle], the
    description or the logger. *)
Lemma add_member_handle uuid name containertype location (self : t) :
  let self' := (add_member uuid name containertype location self).1 in
  handle self' = handle self ∧ _Members self' = _Members self
  ∧ logger self' = logger self ∧ access self' = Released.
Proof.
  destruct (decide (uuid ∈ Member.uuid <$> table self)) as [Hin|Hin].
  - by rewrite add_member_present.
  - by rewrite add_member_absent.
Qed.

End add_member_facts.

(** ** [del_member] *)

Ltac py_step :=
  cbv [mbind py_bind mret py_ret gets getattr raise modify lift_outcome zoom].

Section del_member_facts.
Import _BundleBackend.

Lemma with_rows_id rows (self : t) : stores self rows → with_rows rows self = self.
Proof. unfold stores, with_rows, set_handle. destruct self; simpl. by intros ->. Qed.


(** The inner loop of lines 115-117: a set holds each uuid once, so a row
    is recorded at most once. *)
Lemma inner_loop (x : string) (n : Z) (us : list string) (rowlist : list Z) :
  NoDup us →
  foldl (λ rowlist uuid, if bool_decide (x = uuid) then rowlist ++ [n] else rowlist)
        rowlist us
  = rowlist ++ (if bool_decide (x ∈ us) then [n] else []).
Proof.
  revert rowlist. induction us as [|u us IH]; intros rowlist Hnd; simpl.
  - by rewrite app_nil_r.
  - apply NoDup_cons in Hnd as [Hu Hnd]. rewrite IH by done.
    destruct (decide (x = u)) as [->|Hxu].
    + rewrite (bool_decide_true (u = u)), (bool_decide_false (u ∈ us)) by done.
      rewrite bool_decide_true by left. by rewrite app_nil_r.
    + rewrite (bool_decide_false (x = u)) by done.
      rewrite (bool_decide_ext (x ∈ u :: us) (x ∈ us)); [done|].
      rewrite elem_of_cons. tauto.
Qed.

Lemma matching_loop uuids rows : ∀ k acc,
  foldl (λ rowlist (row : Z * Member.t),
           foldl (λ rowlist uuid,
                    if bool_decide (Member.uuid row.2 = uuid)
                    then rowlist ++ [row.1] else rowlist)
                 rowlist (elements uuids))
        acc (zip (seqZ k (Z.of_nat (length rows))) rows)
  = acc ++ rows_from k uuids rows.
Proof.
  induction rows as [|row rows IH]; intros k acc.
  - simpl. by rewrite app_nil_r.
  - rewrite seqZ_cons by (simpl; lia).
    replace (Z.pred (Z.of_nat (length (row :: rows)))) with (Z.of_nat (length rows))
      by (simpl; lia).
    simpl. rewrite inner_loop by apply NoDup_elements.
    rewrite IH, <- app_assoc. do 2 f_equal.
    by rewrite (bool_decide_ext _ _ (elem_of_elements uuids (Member.uuid row))).
Qed.

Lemma matching_rows_spec uuids table :
  matching_rows uuids table = rows_from 0 uuids table.
Proof. unfold matching_rows, enumerate. by rewrite matching_loop. Qed.

Lemma rows_from_lb uuids rows : ∀ k, Forall (Z.le k) (rows_from k uuids rows).
Proof.
  induction rows as [|row rows IH]; intros k; simpl; [done|].
  apply Forall_app. split.
  - case_bool_decide; repeat constructor. lia.
  - eapply Forall_impl; [apply (IH (k + 1))|]. simpl. lia.
Qed.

Lemma rows_from_sorted uuids rows : ∀ k, Sorted Z.le (rows_from k uuids rows).
Proof.
  intros k. apply StronglySorted_Sorted. revert k.
  induction rows as [|row rows IH]; intros k; simpl; [constructor|].
  case_bool_decide; simpl; [|apply IH].
  constructor; [apply IH|].
  eapply Forall_impl; [apply (rows_from_lb uuids rows (k + 1))|]. simpl. lia.
Qed.

(** [rowlist.sort()] finds the row numbers in ascending order already. *)
Lemma sort_rows_from uuids rows k :
  merge_sort Z.le (rows_from k uuids rows) = rows_from k uuids rows.
Proof.
  apply (Sorted_unique Z.le).
  - apply Sorted_merge_sort. intros x y. lia.
  - apply rows_from_sorted.
  - apply merge_sort_Permutation.
Qed.

Lemma length_rows_from uuids rows : ∀ k,
  (length (rows_from k uuids rows)
   + length (filter (λ row, Member.uuid row ∉ uuids) rows) = length rows)%nat.
Proof.
  induction rows as [|row rows IH]; intros k; simpl; [done|].
  rewrite filter_cons. specialize (IH (k + 1)).
  case_bool_decide; case_decide; try done; simpl; lia.
Qed.

Lemma rows_from_all uuids rows k :
  length (rows_from k uuids rows) = length rows
  ↔ filter (λ row, Member.uuid row ∉ uuids) rows = [].
Proof.
  pose proof (length_rows_from uuids rows k) as Hlen. split.
  - intros Heq. apply length_zero_iff_nil. lia.
  - intros Hnil. rewrite Hnil in Hlen. simpl in Hlen. lia.
Qed.

(** The loop of lines 129-131.  [kp] are the rows already passed and kept,
    [rem] the rows from original position [k] on, [j] the number of rows
    deleted so far. *)
Lemma remove_loop uuids rem : ∀ kp k j (self : t),
  stores self (kp ++ rem) →
  Z.of_nat (length kp) = k - j →
  kp ++ filter (λ row, Member.uuid row ∉ uuids) rem ≠ [] →
  for_each (λ i j, on_handle (tables.remove_row (i - j)) ;; mret (j + 1))
           (rows_from k uuids rem) j self
  = (with_rows (kp ++ filter (λ row, Member.uuid row ∉ uuids) rem) self,
     Return (j + Z.of_nat (length (rows_from k uuids rem)))).
Proof.
  induction rem as [|row rem IH]; intros kp k j self Hst Hlen Hne.
  - simpl. rewrite with_rows_id by done. unfold mret, py_ret. do 2 f_equal. lia.
  - simpl. rewrite filter_cons in *. case_bool_decide as Hrow.
    + rewrite decide_False in * by tauto. simpl.
      unfold on_handle. unfold mbind at 1, py_bind. unfold mbind at 1, py_bind.
      unfold mbind at 1, py_bind, getattr, gets. unfold mbind at 1, py_bind.
      rewrite Hst. unfold mret at 1, py_ret at 1. unfold zoom, tables.remove_row.
      simpl. rewrite bool_decide_true by (rewrite length_app; simpl; lia).
      rewrite bool_decide_false.
      2:{ rewrite length_app. simpl. destruct kp; [|simpl; lia].
          destruct rem; [done|simpl; lia]. }
      replace (Z.to_nat (k - j)) with (length kp) by lia.
      rewrite delete_middle. unfold mret at 1, py_ret at 1.
      rewrite (IH kp (k + 1) (j + 1)); [|done|lia|done].
      f_equal. f_equal. lia.
    + rewrite decide_True in * by tauto. rewrite !app_nil_l.
      rewrite (IH (kp ++ [row]) (k + 1) j self).
      * by rewrite <- !app_assoc.
      * unfold stores. by rewrite <- app_assoc.
      * rewrite length_app. simpl. lia.
      * by rewrite <- app_assoc.
Qed.

(** [table.remove()] and [create_table] leave an empty table. *)
Lemma recreate_ok rows description (self : t) :
  stores self rows → _Members self = Some description →
  recreate self = (with_rows [] self, Return tt).
Proof.
  unfold stores. intros Hst Hd. unfold recreate, on_handle. py_step.
  rewrite Hst. simpl. by rewrite Hd.
Qed.


Lemma kept_gset (uuid : list string) rows :
  filter (λ row, Member.uuid row ∉ (list_to_set (str <$> uuid) : gset string)) rows
  = kept uuid rows.
Proof.
  apply list_filter_iff. intros row. rewrite elem_of_list_to_set.
  unfold str. by rewrite list_fmap_id.
Qed.

(** The body of [del_member] without [all]: the rows with a requested uuid
    go, the others stay as they are. *)
Lemma del_member_body_rows uuid rows description (self : t) :
  stores self rows → _Members self = Some description →
  del_member_body uuid false self = (with_rows (kept uuid rows) self, Return tt).
Proof.
  intros Hst Hd. unfold del_member_body.
  rewrite py_bind_unfold, (getattr_some _ _ _ _ Hst).
  rewrite py_bind_unfold. unfold lift_outcome. simpl.
  rewrite matching_rows_spec. rewrite <- kept_gset.
  set (uuids := list_to_set (str <$> uuid) : gset string).
  case_bool_decide as Hall.
  - apply rows_from_all in Hall. rewrite Hall. by eapply recreate_ok.
  - rewrite sort_rows_from, py_bind_unfold.
    rewrite (remove_loop uuids rows [] 0 0 self); [done|done|done|].
    simpl. intros Hnil. by apply Hall, rows_from_all.
Qed.

(** The body of [del_member] with [all=True]. *)
Lemma del_member_body_purge uuid rows description (self : t) :
  stores self rows → _Members self = Some description →
  del_member_body uuid true self = (with_rows [] self, Return tt).
Proof.
  intros Hst Hd. unfold del_member_body.
  rewrite py_bind_unfold, (getattr_some _ _ _ _ Hst).
  rewrite py_bind_unfold. unfold lift_outcome. simpl. by eapply recreate_ok.
Qed.

Lemma del_member_rows uuid rows description (self : t) :
  stores self rows → _Members self = Some description →
  del_member uuid false self
  = (set_access Released (with_rows (kept uuid rows) self), Return tt).
Proof.
  intros Hst Hd. unfold del_member, _write_state.
  by rewrite (del_member_body_rows uuid rows description).
Qed.

Lemma del_member_purge uuid rows description (self : t) :
  stores self rows → _Members self = Some description →
  del_member uuid true self = (set_access Released (with_rows [] self), Return tt).
Proof.
  intros Hst Hd. unfold del_member, _write_state.
  by rewrite (del_member_body_purge uuid rows description).
Qed.


(** The limitation the branch exists for: the last row of a table cannot be
    deleted on its own. *)
Lemma remove_row_last row :
  tables.remove_row 0 (tables.mkFile (Some [row]))
  = (tables.mkFile (Some [row]), Raise NotImplementedError).
Proof. done. Qed.

(** No handle: the first line of the body raises. *)
Lemma del_member_no_handle uuid purge (self : t) :
  handle self = None →
  del_member uuid purge self
  = (set_access Released self, Raise (AttributeError "handle")).
Proof.
  intros Hh. unfold del_member, _write_state, del_member_body.
  by rewrite py_bind_unfold, getattr_none.
Qed.

End del_member_facts.

(** ** [get_member] and the [get_members_*] family *)

Section read_facts.
Import _BundleBackend.
Context `{tables.Conditions}.

(** The query of line 152 for an uuid of plain characters: the rows whose
    uuid is the one spliced in. *)
Lemma where_plain uuid rows :
  tables.plain uuid = true →
  tables.where_ ("uuid=='" +:+ uuid +:+ "'") rows
  = Return (filter (λ p : Z * Member.t, Member.uuid p.2 = uuid) (enumerate rows)).
Proof.
  intros Hplain. unfold tables.where_.
  rewrite tables.compile_uuid_literal by done. f_equal.
  apply list_filter_iff. intros p. apply bool_decide_eq_true.
Qed.

Lemma where_uuid_nil uuid rows : ∀ k,
  filter (λ p : Z * Member.t, Member.uuid p.2 = uuid)
         (zip (seqZ k (Z.of_nat (length rows))) rows) = []
  ↔ uuid ∉ Member.uuid <$> rows.
Proof.
  induction rows as [|row rows IH]; intros k.
  - simpl. split; [intros _; apply not_elem_of_nil|done].
  - rewrite seqZ_cons by (simpl; lia).
    replace (Z.pred (Z.of_nat (length (row :: rows)))) with (Z.of_nat (length rows))
      by (simpl; lia).
    simpl. rewrite filter_cons, not_elem_of_cons. simpl. case_decide as Hrow.
    + split; [done|]. intros [Hne _]. by destruct Hne.
    + rewrite IH. split; [intros ?; split; [congruence|done]|tauto].
Qed.

(** The first row the query yields is a row of the table with that uuid. *)
Lemma where_uuid_head uuid rows : ∀ k n r rest,
  filter (λ p : Z * Member.t, Member.uuid p.2 = uuid)
         (zip (seqZ k (Z.of_nat (length rows))) rows) = (n, r) :: rest →
  k ≤ n ∧ rows !! Z.to_nat (n - k) = Some r ∧ Member.uuid r = uuid
  ∧ uuid ∉ Member.uuid <$> take (Z.to_nat (n - k)) rows.
Proof.
  induction rows as [|row rows IH]; intros k n r rest; [done|].
  rewrite seqZ_cons by (simpl; lia).
  replace (Z.pred (Z.of_nat (length (row :: rows)))) with (Z.of_nat (length rows))
    by (simpl; lia).
  simpl. rewrite filter_cons. simpl. case_decide as Hrow.
  - intros [= <- <- _]. replace (Z.to_nat (k - k)) with 0%nat by lia.
    repeat split; [lia|done|apply not_elem_of_nil].
  - intros Hf. apply IH in Hf as (Hk & Hlook & Hu & Hfirst).
    replace (Z.to_nat (n - k)) with (S (Z.to_nat (n - Z.succ k))) by lia.
    repeat split; [lia|done|done|].
    simpl. rewrite not_elem_of_cons. split; [congruence|done].
Qed.

(** An unknown uuid: the miss is logged at level INFO and [None] is
    returned. *)
Lemma get_member_absent uuid rows records (self : t) :
  stores self rows → logger self = Some records →
  tables.plain uuid = true → uuid ∉ Member.uuid <$> rows →
  get_member uuid self
  = (set_access Released
       (set_logger (records ++ [(INFO, "No such member in this Group.")]) self),
     Return None).
Proof.
  intros Hst Hlog Hplain Hnot. unfold get_member, _read_state, get_member_body.
  rewrite py_bind_unfold, (getattr_some _ _ (set_access Shared self) _ Hst).
  rewrite py_bind_unfold. unfold lift_outcome. simpl.
  rewrite py_bind_unfold, where_plain by done. unfold enumerate.
  rewrite (proj2 (where_uuid_nil uuid rows 0) Hnot). simpl.
  rewrite py_bind_unfold. unfold logger_info.
  rewrite py_bind_unfold, (getattr_some _ _ (set_access Shared self) _ Hlog).
  done.
Qed.

(** An unknown uuid on an object without a logger: line 156 raises. *)
Lemma get_member_absent_no_logger uuid rows (self : t) :
  stores self rows → logger self = None →
  tables.plain uuid = true → uuid ∉ Member.uuid <$> rows →
  get_member uuid self = (set_access Released self, Raise (AttributeError "logger")).
Proof.
  intros Hst Hlog Hplain Hnot. unfold get_member, _read_state, get_member_body.
  rewrite py_bind_unfold, (getattr_some _ _ (set_access Shared self) _ Hst).
  rewrite py_bind_unfold. unfold lift_outcome. simpl.
  rewrite py_bind_unfold, where_plain by done. unfold enumerate.
  rewrite (proj2 (where_uuid_nil uuid rows 0) Hnot). simpl.
  rewrite py_bind_unfold. unfold logger_info.
  by rewrite py_bind_unfold, (getattr_none _ _ (set_access Shared self) Hlog).
Qed.

(** A known uuid: the first row that carries it. *)
Lemma get_member_present uuid rows (self : t) :
  stores self rows → tables.plain uuid = true → uuid ∈ Member.uuid <$> rows →
  ∃ r, get_member uuid self = (set_access Released self, Return (Some r))
       ∧ r ∈ rows ∧ Member.uuid r = uuid.
Proof.
  intros Hst Hplain Hin. unfold get_member, _read_state, get_member_body.
  rewrite py_bind_unfold, (getattr_some _ _ (set_access Shared self) _ Hst).
  rewrite py_bind_unfold. unfold lift_outcome. simpl.
  rewrite py_bind_unfold, where_plain by done. unfold enumerate.
  destruct (filter _ (zip _ rows)) as [|[n r] rest] eqn:Hf.
  - by apply where_uuid_nil in Hf.
  - apply where_uuid_head in Hf as (Hk & Hlook & Hu & _). simpl.
    replace (n - 0) with n in Hlook by lia. rewrite Hlook.
    exists r. repeat split; [|done]. by eapply list_elem_of_lookup_2.
Qed.

Lemma get_member_no_handle uuid (self : t) :
  handle self = None →
  get_member uuid self = (set_access Released self, Raise (AttributeError "handle")).
Proof.
  intros Hh. unfold get_member, _read_state, get_member_body.
  by rewrite py_bind_unfold, getattr_none.
Qed.

Lemma foldl_snoc_fmap {A B} (f : A → B) (l : list A) : ∀ acc,
  foldl (λ acc x, acc ++ [f x]) acc l = acc ++ (f <$> l).
Proof.
  induction l as [|x l IH]; intros acc; simpl; [by rewrite app_nil_r|].
  by rewrite IH, <- app_assoc.
Qed.

(** A comprehension over the rows with a column that every row has. *)
Lemma iterrows_total {A} (f : Member.t → A) (col : Member.t → outcome A)
    rows (self : t) :
  stores self rows → (∀ x, col x = Return (f x)) →
  iterrows col self = (self, Return (f <$> rows)).
Proof.
  intros Hst Hcol. unfold iterrows.
  rewrite py_bind_unfold, (getattr_some _ _ _ _ Hst).
  rewrite py_bind_unfold. unfold lift_outcome. simpl.
  rewrite (for_each_pure _ (λ acc x, acc ++ [f x])).
  - by rewrite foldl_snoc_fmap.
  - intros x acc s _. by rewrite py_bind_unfold, Hcol.
Qed.

Lemma iterrows_no_handle {A} (col : Member.t → outcome A) (self : t) :
  handle self = None → iterrows col self = (self, Raise (AttributeError "handle")).
Proof. intros Hh. unfold iterrows. by rewrite py_bind_unfold, getattr_none. Qed.

Lemma get_members_uuid_rows rows (self : t) :
  stores self rows →
  get_members_uuid self = (set_access Released self, Return (Member.uuid <$> rows)).
Proof.
  intros Hst. unfold get_members_uuid, _read_state.
  by rewrite (iterrows_total Member.uuid _ rows).
Qed.

Lemma get_members_name_rows rows (self : t) :
  stores self rows →
  get_members_name self = (set_access Released self, Return (Member.name <$> rows)).
Proof.
  intros Hst. unfold get_members_name, _read_state.
  by rewrite (iterrows_total Member.name _ rows).
Qed.

Lemma get_members_containertype_rows rows (self : t) :
  stores self rows →
  get_members_containertype self
  = (set_access Released self, Return (Member.containertype <$> rows)).
Proof.
  intros Hst. unfold get_members_containertype, _read_state.
  by rewrite (iterrows_total Member.containertype _ rows).
Qed.

Lemma get_members_location_rows rows (self : t) :
  stores self rows →
  get_members_location "abspath" self
  = (set_access Released self, Return (Member.abspath <$> rows)).
Proof.
  intros Hst. unfold get_members_location, _read_state.
  by rewrite (iterrows_total Member.abspath _ rows).
Qed.

End read_facts.

(** ** [Bundle.add] and [_CollectionBase.add] *)

(** Induction on the arguments of [add], with the nested lists. *)
Lemma pyval_nested_ind (P : pyval → Prop) :
  (∀ s, P (VStr s)) →
  (∀ c, P (VContainer c)) →
  (∀ l, Forall P l → P (VList l)) →
  (∀ l, Forall P l → P (VTuple l)) →
  P VBundle →
  (∀ l, Forall P l → P (VMembers l)) →
  ∀ v, P v.
Proof.
  intros Hstr Hcont Hlist Htuple Hbundle Hmembers.
  fix IH 1. intros [s|c|l|l| |l].
  - apply Hstr.
  - apply Hcont.
  - apply Hlist. induction l as [|x l IHl]; constructor; [apply IH|apply IHl].
  - apply Htuple. induction l as [|x l IHl]; constructor; [apply IH|apply IHl].
  - apply Hbundle.
  - apply Hmembers. induction l as [|x l IHl]; constructor; [apply IH|apply IHl].
Qed.

(** A loop keeps what every turn keeps. *)
Lemma for_each_preserves {S A B T} (body : A → B → py S B) (f : S → T) xs :
  Forall (λ x, ∀ acc s, f (body x acc s).1 = f s) xs →
  ∀ acc s, f (for_each body xs acc s).1 = f s.
Proof.
  induction 1 as [|x xs Hx _ IH]; intros acc s; simpl; [done|].
  rewrite py_bind_unfold. specialize (Hx acc s).
  destruct (body x acc s) as [s' [acc'|e]]; simpl in *; [|done].
  by rewrite IH.
Qed.

Section bundle_facts.
Import Bundle.
Context `{Filesystem}.







(** [Bundle.add] never reaches the backend, whatever the Bundle holds. *)
Lemma add_new_backend c out (self : Bundle.t) :
  backend (add_new c out self).1 = backend self.
Proof.
  unfold add_new. rewrite py_bind_unfold. unfold getattr at 1.
  rewrite py_bind_unfold. unfold gets.
  destruct (_uuids self) as [uuids|] eqn:Hu; simpl; [|done].
  case_bool_decide; [done|].
  rewrite py_bind_unfold, (getattr_some _ _ _ _ Hu). done.
Qed.

Lemma extend_backend out (self : Bundle.t) :
  backend (extend out self).1 = backend self.
Proof.
  unfold extend. rewrite py_bind_unfold. unfold getattr.
  rewrite py_bind_unfold. unfold gets.
  by destruct (_containers self).
Qed.

Lemma add_item_backend container : ∀ out (self : Bundle.t),
  backend (add_item container out self).1 = backend self.
Proof.
  induction container as [s|c|l IH|l _| |l _] using pyval_nested_ind;
    intros out self; try done.
  - simpl. rewrite py_bind_unfold. unfold lift_outcome. simpl.
    destruct (os_path_exists s); [|done].
    apply (for_each_preserves add_new backend), Forall_forall.
    intros. apply add_new_backend.
  - apply add_new_backend.
  - simpl. rewrite py_bind_unfold.
    pose proof (for_each_preserves add_item backend l IH [] self) as Hloop.
    destruct (for_each add_item l [] self) as [s' [inner|e]]; simpl in *; [|done].
    rewrite py_bind_unfold. pose proof (extend_backend inner s') as Hext.
    destruct (extend inner s') as [s'' [[]|e]]; simpl in *; congruence.
Qed.

Lemma add_backend containers (self : Bundle.t) :
  backend (add containers self).1 = backend self.
Proof.
  unfold add. rewrite py_bind_unfold.
  pose proof (for_each_preserves add_item backend containers) as Hloop.
  specialize (Hloop ltac:(apply Forall_forall; intros; apply add_item_backend) [] self).
  destruct (for_each add_item containers [] self) as [s' [outconts|e]];
    simpl in *; [|done].
  by rewrite extend_backend.
Qed.

(** On a Bundle with both lists bound, [add] of a container keeps the
    containers apart by uuid. *)
Lemma add_container_bound c uuids containers (b : _BundleBackend.t) :
  add [VContainer c] (mk b (Some uuids) (Some containers))
  = if bool_decide (Container.uuid c ∈ uuids)
    then (mk b (Some uuids) (Some containers), Return tt)
    else (mk b (Some (uuids ++ [Container.uuid c])) (Some (containers ++ [c])),
          Return tt).
Proof.
  unfold add. rewrite py_bind_unfold. simpl. rewrite py_bind_unfold.
  unfold add_new. rewrite py_bind_unfold. unfold getattr at 1.
  rewrite py_bind_unfold. unfold gets. simpl.
  case_bool_decide; simpl.
  - unfold extend. rewrite py_bind_unfold. unfold getattr.
    rewrite py_bind_unfold. unfold gets, modify, set_containers. simpl.
    by rewrite app_nil_r.
  - done.
Qed.

End bundle_facts.

(** ** [_CollectionBase.add] *)

Section collection_facts.
Import _BundleBackend.
Context `{Filesystem}.

Lemma register_one c (self : _CollectionBase.t) :
  _CollectionBase.register [c] self
  = let '(b, out) := add_member (Container.uuid c) (Container.name c)
                       (Container.containertype c) (Container.location c)
                       (_CollectionBase.backend self) in
    (_CollectionBase.mk b, out).
Proof.
  unfold _CollectionBase.register. simpl. rewrite py_bind_unfold. unfold zoom.
  destruct (add_member _ _ _ _ _) as [b [[]|e]]; done.
Qed.

(** A container whose uuid the backend table lacks is registered. *)
Lemma collection_add_new c (self : _CollectionBase.t) :
  Container.uuid c ∉ Member.uuid <$> table (_CollectionBase.backend self) →
  _CollectionBase.add [VContainer c] self
  = (_CollectionBase.mk
       (set_access Released
          (set_table (table (_CollectionBase.backend self) ++ [member_of c])
             (_CollectionBase.backend self))),
     Return tt).
Proof.
  intros Hnew. unfold _CollectionBase.add. rewrite py_bind_unfold. simpl.
  rewrite register_one. by rewrite add_member_absent.
Qed.

(** A container whose uuid the table has: no test skips it, and
    [add_member] raises. *)
Lemma collection_add_again c (self : _CollectionBase.t) :
  Container.uuid c ∈ Member.uuid <$> table (_CollectionBase.backend self) →
  _CollectionBase.add [VContainer c] self
  = (_CollectionBase.mk (set_access Released (_CollectionBase.backend self)),
     Raise (TypeError "list indices must be integers, not list")).
Proof.
  intros Hold. unfold _CollectionBase.add. rewrite py_bind_unfold. simpl.
  rewrite register_one. by rewrite add_member_present.
Qed.

(** A tuple is unpacked and its containers are registered. *)
Lemma collection_add_tuple c (self : _CollectionBase.t) :
  Container.uuid c ∉ Member.uuid <$> table (_CollectionBase.backend self) →
  _CollectionBase.add [VTuple [VContainer c]] self
  = (_CollectionBase.mk
       (set_access Released
          (set_table (table (_CollectionBase.backend self) ++ [member_of c])
             (_CollectionBase.backend self))),
     Return tt).
Proof.
  intros Hnew. unfold _CollectionBase.add. rewrite py_bind_unfold. simpl.
  rewrite !py_bind_unfold. simpl.
  rewrite py_bind_unfold, register_one. by rewrite add_member_absent.
Qed.

End collection_facts.

(** ** What the two stores of the backend see of each other *)

Section two_stores.
Import _BundleBackend.
Context `{Filesystem} `{tables.Conditions}.

(** The answer of [get_member] is a function of the handle and the logger. *)
Lemma get_member_reads_handle uuid (s s' : t) :
  handle s = handle s' → logger s = logger s' →
  (get_member uuid s).2 = (get_member uuid s').2.
Proof.
  intros Hh Hl. unfold get_member, _read_state, get_member_body, getattr.
  rewrite !py_bind_unfold. unfold gets. simpl. rewrite <- Hh.
  destruct (handle s) as [[[rows|]]|]; simpl; [|done|done].
  rewrite !py_bind_unfold. unfold lift_outcome. simpl.
  destruct (tables.where_ _ rows) as [found|e]; rewrite !py_bind_unfold; simpl;
    [|done].
  destruct (fst <$> found) as [|n ?]; simpl.
  - unfold logger_info, getattr. rewrite !py_bind_unfold. unfold gets. simpl.
    rewrite <- Hl. by destruct (logger s).
  - by destruct (rows !! Z.to_nat n).
Qed.

Lemma stores_add_member uuid name containertype location rows (self : t) :
  stores self rows →
  stores (add_member uuid name containertype location self).1 rows.
Proof.
  unfold stores. intros <-.
  apply (add_member_handle uuid name containertype location self).
Qed.

Lemma stores_listed rows (self : t) : stores self rows → listed_in_order self rows.
Proof.
  intros Hst.
  exists (Member.uuid <$> rows), (Member.name <$> rows),
    (Member.containertype <$> rows), (Member.abspath <$> rows).
  rewrite (get_members_uuid_rows rows), (get_members_name_rows rows),
    (get_members_containertype_rows rows), (get_members_location_rows rows) by done.
  rewrite !length_fmap. do 8 (split; [done|]).
  intros i row Hrow. by rewrite !list_lookup_fmap, Hrow.
Qed.

(** The transaction boundary gives access back on every exit path. *)
Lemma write_state_releases {A} (func : py t A) (self : t) :
  access (_write_state func self).1 = Released.
Proof. unfold _write_state. by destruct (func _) as [s' out]. Qed.

Lemma read_state_releases {A} (func : py t A) (self : t) :
  access (_read_state func self).1 = Released.
Proof. unfold _read_state. by destruct (func _) as [s' out]. Qed.

(** [add_member] can only raise before its first write. *)
Lemma add_member_failure_keeps_table uuid name containertype location (self : t) e :
  (add_member uuid name containertype location self).2 = Raise e →
  (add_member uuid name containertype location self).1 = set_access Released self.
Proof.
  destruct (decide (uuid ∈ Member.uuid <$> table self)) as [Hin|Hin].
  - by rewrite add_member_present.
  - by rewrite add_member_absent.
Qed.



End two_stores.

(** ** The objects the class itself makes *)

Section class_objects.
Import _BundleBackend.
Context `{Filesystem} `{tables.Conditions}.

Lemma extends_refl (b : t) : extends b b.
Proof. by repeat split. Qed.

Lemma extends_trans (b1 b2 b3 : t) : extends b1 b2 → extends b2 b3 → extends b1 b3.
Proof.
  intros (Hp1 & Hh1 & Hn1) (Hp2 & Hh2 & Hn2). repeat split.
  - by etrans.
  - congruence.
  - auto.
Qed.

Lemma extends_released (b : t) : extends b (set_access Released b).
Proof. by repeat split. Qed.

Lemma add_member_extends_aux uuid name containertype location (self : t) :
  extends self (add_member uuid name containertype location self).1.
Proof.
  destruct (decide (uuid ∈ Member.uuid <$> table self)) as [Hin|Hin].
  - rewrite add_member_present by done. apply extends_released.
  - rewrite add_member_absent by done. repeat split; simpl.
    + by apply prefix_app_r.
    + intros Hnd. rewrite fmap_app. apply NoDup_app. repeat split; [done| |].
      * intros x Hx [->|[]%elem_of_nil]%elem_of_cons. done.
      * apply NoDup_singleton.
Qed.

Lemma reachable_no_handle (self : t) :
  reachable self → handle self = None ∧ NoDup (Member.uuid <$> table self).
Proof.
  induction 1 as [|uuid name ct loc s _ [Hh Hn]|uuid purge s _ [Hh Hn]
                  |u s _ [Hh Hn]|s _ [Hh Hn]|s _ [Hh Hn]|s _ [Hh Hn]
                  |path s _ [Hh Hn]].
  - split; [done|]. simpl. apply NoDup_nil_2.
  - destruct (add_member_extends_aux uuid name ct loc s) as (_ & Hh' & Hn').
    split; [congruence|auto].
  - by rewrite del_member_no_handle.
  - by rewrite get_member_no_handle.
  - unfold get_members_uuid, _read_state. by rewrite iterrows_no_handle.
  - unfold get_members_name, _read_state. by rewrite iterrows_no_handle.
  - unfold get_members_containertype, _read_state. by rewrite iterrows_no_handle.
  - unfold get_members_location, _read_state. by rewrite iterrows_no_handle.
Qed.

(** Nor does a method bind [self._Members] or [self.logger]. *)
Lemma reachable_unbound (self : t) :
  reachable self → _Members self = None ∧ logger self = None.
Proof.
  induction 1 as [|uuid name ct loc s _ [Hm Hl]|uuid purge s Hr [Hm Hl]
                  |u s Hr [Hm Hl]|s Hr [Hm Hl]|s Hr [Hm Hl]|s Hr [Hm Hl]
                  |path s Hr [Hm Hl]];
    try (apply reachable_no_handle in Hr as [Hh _]).
  - done.
  - destruct (add_member_handle uuid name ct loc s) as (_ & Hm' & Hl' & _).
    split; congruence.
  - by rewrite del_member_no_handle.
  - by rewrite get_member_no_handle.
  - unfold get_members_uuid, _read_state. by rewrite iterrows_no_handle.
  - unfold get_members_name, _read_state. by rewrite iterrows_no_handle.
  - unfold get_members_containertype, _read_state. by rewrite iterrows_no_handle.
  - unfold get_members_location, _read_state. by rewrite iterrows_no_handle.
Qed.

(** The four listings of an object without a handle. *)
Lemma listings_no_handle path (self : t) :
  handle self = None →
  get_members_uuid self = (set_access Released self, Raise (AttributeError "handle"))
  ∧ get_members_name self
    = (set_access Released self, Raise (AttributeError "handle"))
  ∧ get_members_containertype self
    = (set_access Released self, Raise (AttributeError "handle"))
  ∧ get_members_location path self
    = (set_access Released self, Raise (AttributeError "handle")).
Proof.
  intros Hh.
  unfold get_members_uuid, get_members_name, get_members_containertype,
    get_members_location, _read_state.
  by rewrite !(iterrows_no_handle _ (set_access Shared self)).
Qed.

Lemma not_listed_no_handle rows (self : t) :
  handle self = None → ¬ listed_in_order self rows.
Proof.
  intros Hh (ids & names & kinds & locations & Hids & _).
  destruct (listings_no_handle "abspath" self Hh) as [Huuid _].
  by rewrite Huuid in Hids.
Qed.

End class_objects.

(** ** The methods on an object that has the attributes of a state file *)

Section state_file_facts.
Import _BundleBackend.
Context `{Filesystem}.

(** Without [all], [del_member] removes the rows whose uuid was supplied
    and no other, ignores supplied uuids that no row carries, returns
    normally, and leaves the remaining rows in their order; the listing of
    uuids afterwards is that of the remaining rows. *)
Lemma del_member_removes_exactly (uuid : list string) rows description (self : t) :
  stores self rows → _Members self = Some description →
  del_member uuid false self
  = (set_access Released (with_rows (kept uuid rows) self), Return tt)
  ∧ (∀ row, row ∈ kept uuid rows ↔ row ∈ rows ∧ Member.uuid row ∉ uuid)
  ∧ kept uuid rows `sublist_of` rows
  ∧ (get_members_uuid (del_member uuid false self).1).2
    = Return (Member.uuid <$> kept uuid rows).
Proof.
  intros Hst Hd. rewrite (del_member_rows uuid rows description) by done.
  split; [done|]. split.
  { intros row. unfold kept. rewrite list_elem_of_filter. tauto. }
  split; [apply sublist_filter|].
  simpl. by rewrite (get_members_uuid_rows (kept uuid rows)).
Qed.

(** The four listings are the four projections of the rows, in row order;
    this holds again after every [add_member], which leaves the rows alone,
    and after every [del_member]. *)
Lemma listings_consistent rows description (self : t) :
  stores self rows → _Members self = Some description →
  listed_in_order self rows
  ∧ (∀ uuid name containertype location,
       listed_in_order (add_member uuid name containertype location self).1 rows)
  ∧ (∀ uuid, listed_in_order (del_member uuid false self).1 (kept uuid rows))
  ∧ (∀ uuid, listed_in_order (del_member uuid true self).1 []).
Proof.
  intros Hst Hd. split; [by apply stores_listed|]. split; [|split].
  - intros. by apply stores_listed, stores_add_member.
  - intros uuid. rewrite (del_member_rows uuid rows description) by done.
    by apply stores_listed.
  - intros uuid. rewrite (del_member_purge uuid rows description) by done.
    by apply stores_listed.
Qed.

End state_file_facts.

(** * The claims *)

Section claims.
Import _BundleBackend.
Context `{Filesystem} `{tables.Conditions}.

(** C1.  The claim asks that [add_member] with an uuid already in the table
    rewrites the location of that record and does not raise.  The code reaches
    the update branch with [index] bound to a list and subscripts
    [self.table] with it: the call raises [TypeError] and the table, the
    location of the record included, stays as it was. *)
Theorem add_member_existing_uuid_raises uuid name containertype location (self : t) :
  uuid ∈ Member.uuid <$> table self →
  add_member uuid name containertype location self
  = (set_access Released self,
     Raise (TypeError "list indices must be integers, not list"))
  ∧ table (add_member uuid name containertype location self).1 = table self.
Proof. intros Hin. by rewrite add_member_present. Qed.

(** C2.  The claim asks that [add] appends every new entity, records its id
    and hands it to [add_member], and skips an entity already present.
    [Bundle.add], called by the constructor, raises on its first read of
    [self._uuids]; whatever the Bundle holds it never reaches the backend;
    and [_CollectionBase.add], which does call [add_member], has no test
    for a present id, so a second submission raises instead of being
    skipped. *)
Theorem add_neither_registers_nor_skips (c : Container.t)
    (containers : list pyval) (self : Bundle.t) :
  Bundle.__init__ [VContainer c] = (fresh_bundle, Raise (AttributeError "_uuids"))
  ∧ Bundle.backend (Bundle.add containers self).1 = Bundle.backend self
  ∧ (let s1 := (_CollectionBase.add [VContainer c]
                  (_CollectionBase.mk __init__)).1 in
     table (_CollectionBase.backend s1) = [member_of c]
     ∧ _CollectionBase.add [VContainer c] s1
       = (s1, Raise (TypeError "list indices must be integers, not list"))).
Proof.
  split; [done|]. split; [apply add_backend|].
  rewrite collection_add_new by (simpl; apply not_elem_of_nil). simpl.
  split; [done|]. rewrite collection_add_again; [done|]. simpl. left.
Qed.

(** C3.  The claim asks that [del_member] removes exactly the records with
    the supplied ids and keeps the others in their order, as in the
    scenario: ids 1, 2, 3 are added and 2 is removed.  The records that
    [add_member] stored are in [self.table]; [del_member] looks for them
    behind [self.handle], which no method binds.  On every object that
    method calls make from a new backend the call raises on its first line,
    every stored record is still stored, and the listing of ids raises
    too. *)
Theorem del_member_removes_nothing (uuid : list string) (self : t) :
  reachable self →
  del_member uuid false self
  = (set_access Released self, Raise (AttributeError "handle"))
  ∧ table (del_member uuid false self).1 = table self
  ∧ (get_members_uuid (del_member uuid false self).1).2
    = Raise (AttributeError "handle").
Proof.
  intros [Hh _]%reachable_no_handle.
  rewrite del_member_no_handle by done. do 2 (split; [done|]).
  simpl.
  destruct (listings_no_handle "abspath" (set_access Released self) Hh) as [Hu _].
  by rewrite Hu.
Qed.

(** C5.  The claim asks that [get_member] after [add_member] returns the
    record just added.  [add_member] writes [self.table] and [get_member]
    reads the members table behind [self.handle]: the answer of [get_member]
    is the one it gave before the [add_member].  On a new backend that is
    the [AttributeError] for the handle, and on a state file with an empty
    table it is [None] (for an uuid of plain characters, whose query is
    well formed). *)
Theorem add_member_then_get_member uuid name containertype location (self : t) :
  (get_member uuid (add_member uuid name containertype location self).1).2
  = (get_member uuid self).2
  ∧ (get_member uuid (add_member uuid name containertype location __init__).1).2
    = Raise (AttributeError "handle")
  ∧ (tables.plain uuid = true →
     (get_member uuid
        (add_member uuid name containertype location (state_file [])).1).2
     = Return None).
Proof.
  assert (∀ s, (get_member uuid (add_member uuid name containertype location s).1).2
               = (get_member uuid s).2) as Hsame.
  { intros s. apply get_member_reads_handle;
      apply (add_member_handle uuid name containertype location s). }
  rewrite !Hsame. do 2 (split; [done|]). intros Hplain.
  rewrite (get_member_absent uuid [] [] (state_file [])); try done.
  apply not_elem_of_nil.
Qed.

(** C6.  The claim asks that [get_member] on an id that is not present
    returns [None], logs the miss and never raises.  On every object that
    method calls make from a new backend it raises [AttributeError] for
    [self.handle]; and were a handle bound to such an object, the miss
    would reach line 156 and raise [AttributeError] for [self.logger],
    which no method binds either. *)
Theorem get_member_unknown_uuid_raises uuid rows (self : t) :
  reachable self →
  get_member uuid self
  = (set_access Released self, Raise (AttributeError "handle"))
  ∧ (tables.plain uuid = true → uuid ∉ Member.uuid <$> rows →
     get_member uuid (with_rows rows self)
     = (set_access Released (with_rows rows self),
        Raise (AttributeError "logger"))).
Proof.
  intros Hr. destruct (reachable_no_handle self Hr) as [Hh _].
  destruct (reachable_unbound self Hr) as [_ Hl].
  split; [by apply get_member_no_handle|]. intros Hplain Hnot.
  by apply (get_member_absent_no_logger uuid rows).
Qed.

(** C7.  The claim asks that on every reachable state the four listings
    return sequences of one length whose elements at one position belong to
    one record, and that [add_member] and [del_member] keep it so.  On
    every object that method calls make from a new backend each of the four
    raises [AttributeError] for [self.handle], so no sequences are returned
    at all, whatever [add_member] stored, and this is still so after every
    [add_member] and every [del_member]. *)
Theorem listings_raise_on_class_objects path rows (self : t) :
  reachable self →
  get_members_uuid self = (set_access Released self, Raise (AttributeError "handle"))
  ∧ get_members_name self
    = (set_access Released self, Raise (AttributeError "handle"))
  ∧ get_members_containertype self
    = (set_access Released self, Raise (AttributeError "handle"))
  ∧ get_members_location path self
    = (set_access Released self, Raise (AttributeError "handle"))
  ∧ ¬ listed_in_order self rows
  ∧ (∀ uuid name containertype location,
       ¬ listed_in_order (add_member uuid name containertype location self).1 rows)
  ∧ (∀ uuid purge, ¬ listed_in_order (del_member uuid purge self).1 rows).
Proof.
  intros Hr. destruct (reachable_no_handle self Hr) as [Hh _].
  destruct (listings_no_handle path self Hh) as (Hu & Hn & Hc & Hp).
  do 4 (split; [done|]). split; [by apply not_listed_no_handle|]. split.
  - intros uuid name ct loc. apply not_listed_no_handle.
    by apply reachable_no_handle, reach_add_member.
  - intros uuid purge. apply not_listed_no_handle.
    by apply reachable_no_handle, reach_del_member.
Qed.



(** C10 (amended).  [Bundle.add] makes its recursive call for a list only; a
    tuple, a Bundle or a Members object reaches [os.path.exists], which
    raises [TypeError], so the call fails and adds nothing.
    [_CollectionBase.add] makes the recursive call for lists, tuples and
    Members objects, and attempts it for a Bundle, which cannot be unpacked.
    For a tuple holding one container [_CollectionBase.add] registers the
    container and [Bundle.add] registers nothing. *)
Theorem add_nested_collections (c : Container.t) (l : list pyval)
    (out : list Container.t) (self : Bundle.t) (coll : _CollectionBase.t) :
  Bundle.add_item (VList l) out self = (Bundle.add l ;; mret out) self
  ∧ Bundle.add [VTuple l] self
    = (self, Raise (TypeError "coercing to Unicode: need string or buffer"))
  ∧ Bundle.add [VBundle] self
    = (self, Raise (TypeError "coercing to Unicode: need string or buffer"))
  ∧ Bundle.add [VMembers l] self
    = (self, Raise (TypeError "coercing to Unicode: need string or buffer"))
  ∧ _CollectionBase.add_item (VList l) out coll
    = (_CollectionBase.add l ;; mret out) coll
  ∧ _CollectionBase.add_item (VTuple l) out coll
    = (_CollectionBase.add l ;; mret out) coll
  ∧ _CollectionBase.add_item (VMembers l) out coll
    = (_CollectionBase.add l ;; mret out) coll
  ∧ _CollectionBase.add_item VBundle out coll
    = (coll, Raise (TypeError "add() argument after * must be a sequence, not Bundle"))
  ∧ _CollectionBase.add [VTuple [VContainer c]] (_CollectionBase.mk __init__)
    = (_CollectionBase.mk (set_access Released (set_table [member_of c] __init__)),
       Return tt)
  ∧ Bundle.add [VTuple [VContainer c]] empty_bundle
    = (empty_bundle, Raise (TypeError "coercing to Unicode: need string or buffer")).
Proof.
  assert (∀ S A B C (m : py S A) (k : A → py S B) (k' : B → py S C) s,
            (m ≫= λ a, k a ≫= k') s = ((m ≫= k) ≫= k') s) as Hassoc.
  { intros. rewrite !py_bind_unfold. by destruct (m s) as [s' [a|e]]. }
  split; [apply Hassoc|]. do 3 (split; [done|]).
  do 3 (split; [apply Hassoc|]). split; [done|].
  split; [|done].
  by rewrite collection_add_tuple by (simpl; apply not_elem_of_nil).
Qed.

End claims.

(** C4.  The claim asks that after a purge, or a removal of every id, the
    listing is empty and the store takes a fresh [add_member] as new.  The
    purge and the full removal do agree and empty the members table, but
    [add_member] writes [self.table], which no removal touches and no
    listing reads: an id added before the purge is still found there and the
    new [add_member] raises, and a really new id is appended there and
    appears in no listing. *)
Theorem purge_then_add_member :
  let add_member := _BundleBackend.add_member (H := sample_fs) in
  let del_member := _BundleBackend.del_member in
  let get_members_uuid := _BundleBackend.get_members_uuid in
  let get_member := _BundleBackend.get_member (H := sample_conditions) in
  let s1 := (add_member "u1" "A" Sim "./data" (state_file rows_123)).1 in
  let s2 := (del_member [] true s1).1 in
  del_member ["1"; "2"; "3"] false s1 = del_member [] true s1
  ∧ (get_members_uuid s2).2 = Return []
  ∧ (add_member "u1" "A" Sim "./data" s2).2
    = Raise (TypeError "list indices must be integers, not list")
  ∧ (let s3 := (add_member "u9" "N" Sim "/n" s2).1 in
     (add_member "u9" "N" Sim "/n" s2).2 = Return tt
     ∧ (get_members_uuid s3).2 = Return []
     ∧ (get_member "u9" s3).2 = Return None)
  ∧ (del_member [] true _BundleBackend.__init__).2 = Raise (AttributeError "handle").
Proof. vm_compute. done. Qed.


(** The scenario of the specification: [A] is added from [./data] and then
    again from [/abs/data]. *)
Lemma add_member_existing_uuid_raises_witness :
  let s1 := (_BundleBackend.add_member (H := sample_fs) "u1" "A" Sim "./data"
               _BundleBackend.__init__).1 in
  "u1" ∈ Member.uuid <$> _BundleBackend.table s1
  ∧ _BundleBackend.table
      (_BundleBackend.add_member (H := sample_fs) "u1" "A" Sim "/abs/data" s1).1
    = [Member.mk "u1" "A" Sim "/home/user/data"].
Proof.
  split.
  - vm_compute. left.
  - apply (@add_member_existing_uuid_raises sample_fs "u1" "A" Sim "/abs/data").
    vm_compute. left.
Defined.

(** The scenario of the specification: ids 1, 2, 3 are added in this
    order, then [del_member(2)]. *)
Lemma del_member_removes_nothing_witness :
  let add_member := _BundleBackend.add_member (H := sample_fs) in
  let s3 := (add_member "3" "C" Sim "/c"
               (add_member "2" "B" Group "/b"
                  (add_member "1" "A" Sim "/a" _BundleBackend.__init__).1).1).1 in
  @reachable sample_fs sample_conditions s3
  ∧ _BundleBackend.table s3 = rows_123
  ∧ _BundleBackend.del_member ["2"] false s3 = (s3, Raise (AttributeError "handle"))
  ∧ _BundleBackend.table (_BundleBackend.del_member ["2"] false s3).1 = rows_123.
Proof.
  intros add_member s3.
  assert (@reachable sample_fs sample_conditions s3) as Hr
    by (do 3 apply reach_add_member; apply reach_init).
  split; [exact Hr|]. split; [reflexivity|].
  destruct (@del_member_removes_nothing sample_fs sample_conditions ["2"] s3 Hr)
    as (Hdel & Htable & _).
  split; [exact Hdel|exact Htable].
Defined.

Lemma add_member_then_get_member_witness :
  tables.plain "u1" = true
  ∧ (_BundleBackend.get_member (H := sample_conditions) "u1"
       (_BundleBackend.add_member (H := sample_fs) "u1" "A" Sim "./data"
          (state_file [])).1).2
    = Return None.
Proof.
  split; [reflexivity|].
  apply (@add_member_then_get_member sample_fs sample_conditions
           "u1" "A" Sim "./data" _BundleBackend.__init__).
  reflexivity.
Defined.

Lemma get_member_unknown_uuid_raises_witness :
  @reachable sample_fs sample_conditions _BundleBackend.__init__
  ∧ tables.plain "9" = true
  ∧ ("9" ∉ Member.uuid <$> rows_123)
  ∧ (_BundleBackend.get_member (H := sample_conditions) "9"
       _BundleBackend.__init__).2
    = Raise (AttributeError "handle")
  ∧ (_BundleBackend.get_member (H := sample_conditions) "9"
       (with_rows rows_123 _BundleBackend.__init__)).2
    = Raise (AttributeError "logger").
Proof.
  assert ("9" ∉ Member.uuid <$> rows_123) as Hnew.
  { apply (bool_decide_unpack _). vm_compute. exact I. }
  split; [apply reach_init|]. split; [reflexivity|]. split; [exact Hnew|].
  destruct (@get_member_unknown_uuid_raises sample_fs sample_conditions
              "9" rows_123 _BundleBackend.__init__ reach_init) as [Hnone Hbound].
  split; [by rewrite Hnone|]. by rewrite (Hbound eq_refl Hnew).
Defined.

Lemma listings_raise_on_class_objects_witness :
  let s1 := (_BundleBackend.add_member (H := sample_fs) "u1" "A" Sim "./data"
               _BundleBackend.__init__).1 in
  @reachable sample_fs sample_conditions s1
  ∧ _BundleBackend.table s1 = [Member.mk "u1" "A" Sim "/home/user/data"]
  ∧ (_BundleBackend.get_members_uuid s1).2 = Raise (AttributeError "handle")
  ∧ ¬ listed_in_order s1 (_BundleBackend.table s1).
Proof.
  intros s1.
  assert (@reachable sample_fs sample_conditions s1) as Hr
    by (apply reach_add_member, reach_init).
  split; [exact Hr|]. split; [reflexivity|].
  destruct (@listings_raise_on_class_objects sample_fs sample_conditions
              "abspath" (_BundleBackend.table s1) s1 Hr)
    as (Hu & _ & _ & _ & Hnot & _).
  split; [by rewrite Hu|exact Hnot].
Defined.




(** C10, as first stated, fails for a tuple: [Bundle.add] does not drop it
    silently, it raises. *)
Lemma Bundle_add_tuple_not_dropped :
  Bundle.add (H := sample_fs) [VTuple [VContainer container_A]] empty_bundle
  = (empty_bundle, Raise (TypeError "coercing to Unicode: need string or buffer"))
  ∧ ¬ ∃ s, Bundle.add (H := sample_fs) [VTuple [VContainer container_A]] empty_bundle
           = (s, Return tt).
Proof. split; [reflexivity|]. by intros [s Hs]. Qed.

(** * Further properties of the backend *)

Section backend_more.
Import _BundleBackend.
Context `{Filesystem} `{tables.Conditions}.

(** X1.  [add_member] never removes, rewrites or moves a stored record: the
    old table is a prefix of the new one, the file behind the handle is
    untouched and unique uuids stay unique; it returns normally exactly
    when the uuid is new, and the table is then one record longer. *)
Theorem add_member_only_appends uuid name containertype location (self : t) :
  extends self (add_member uuid name containertype location self).1
  ∧ ((add_member uuid name containertype location self).2 = Return tt
     ↔ uuid ∉ Member.uuid <$> table self)
  ∧ length (table (add_member uuid name containertype location self).1)
    = if bool_decide (uuid ∈ Member.uuid <$> table self)
      then length (table self) else S (length (table self)).
Proof.
  split; [apply add_member_extends_aux|].
  destruct (decide (uuid ∈ Member.uuid <$> table self)) as [Hin|Hin].
  - rewrite add_member_present, bool_decide_true by done. simpl.
    split; [|done]. split; [done|]. by intros [].
  - rewrite add_member_absent, bool_decide_false by done. simpl.
    split; [done|]. rewrite length_app. simpl. lia.
Qed.

(** *** [del_member] *)

Lemma kept_kept uuid1 uuid2 rows :
  kept uuid2 (kept uuid1 rows) = kept (uuid1 ++ uuid2) rows.
Proof.
  unfold kept. rewrite list_filter_filter. apply list_filter_iff.
  intros row. rewrite elem_of_app. tauto.
Qed.

Lemma kept_ext uuid uuid' rows :
  (∀ x, x ∈ uuid ↔ x ∈ uuid') → kept uuid rows = kept uuid' rows.
Proof. intros Hext. apply list_filter_iff. intros row. by rewrite Hext. Qed.

Lemma released_with_rows rows rows' (self : t) :
  set_access Released
    (with_rows rows' (set_access Released (with_rows rows self)))
  = set_access Released (with_rows rows' self).
Proof. done. Qed.

(** X2.  Removing the same ids a second time changes nothing and does not
    raise. *)
Theorem del_member_idempotent uuid rows description (self : t) :
  stores self rows → _Members self = Some description →
  del_member uuid false (del_member uuid false self).1
  = ((del_member uuid false self).1, Return tt).
Proof.
  intros Hst Hd. rewrite (del_member_rows uuid rows description self) by done.
  simpl. rewrite (del_member_rows uuid (kept uuid rows) description);
    [|reflexivity|exact Hd].
  rewrite released_with_rows, kept_kept.
  by rewrite (kept_ext (uuid ++ uuid) uuid) by (intros x; rewrite elem_of_app; tauto).
Qed.

(** X3.  Two removals in a row leave the object as one removal of all the
    ids together does. *)
Theorem del_member_twice uuid1 uuid2 rows description (self : t) :
  stores self rows → _Members self = Some description →
  del_member uuid2 false (del_member uuid1 false self).1
  = del_member (uuid1 ++ uuid2) false self.
Proof.
  intros Hst Hd. rewrite (del_member_rows uuid1 rows description self) by done.
  simpl.
  rewrite (del_member_rows uuid2 (kept uuid1 rows) description);
    [|reflexivity|exact Hd].
  rewrite (del_member_rows (uuid1 ++ uuid2) rows description self) by done.
  by rewrite released_with_rows, kept_kept.
Qed.

(** X4.  Only the set of the ids passed counts: their order and their
    repetitions make no difference, whatever the object is. *)
Theorem del_member_ids_as_set uuid uuid' purge (self : t) :
  (∀ x, x ∈ uuid ↔ x ∈ uuid') →
  del_member uuid purge self = del_member uuid' purge self.
Proof.
  intros Hext. unfold del_member, del_member_body.
  replace (list_to_set (str <$> uuid') : gset string)
    with (list_to_set (str <$> uuid) : gset string); [done|].
  apply set_eq. intros x. rewrite !elem_of_list_to_set.
  unfold str. rewrite !list_fmap_id. apply Hext.
Qed.

Lemma on_handle_frame {A B} (f : t → B) (m : py tables.File A) (self : t) :
  (∀ h s, f (set_handle h s) = f s) → f (on_handle m self).1 = f self.
Proof.
  intros Hf. unfold on_handle, getattr. rewrite !py_bind_unfold. unfold gets.
  destruct (handle self) as [h|]; simpl; [|done].
  unfold zoom. destruct (m h) as [h' out]. apply Hf.
Qed.

Lemma recreate_frame {B} (f : t → B) (self : t) :
  (∀ h s, f (set_handle h s) = f s) → f (recreate self).1 = f self.
Proof.
  intros Hf. unfold recreate. rewrite py_bind_unfold.
  pose proof (on_handle_frame f tables.remove self Hf) as H1.
  destruct (on_handle tables.remove self) as [s1 [[]|e]]; simpl in *; [|done].
  unfold getattr. rewrite !py_bind_unfold. unfold gets.
  destruct (handle s1) as [h|]; simpl; [|done].
  rewrite !py_bind_unfold.
  destruct (_Members s1) as [d|]; simpl; [|done].
  unfold zoom. destruct (tables.create_table d h) as [h' out]. simpl.
  by rewrite Hf.
Qed.

Lemma del_member_body_frame {B} (f : t → B) uuid purge (self : t) :
  (∀ h s, f (set_handle h s) = f s) → f (del_member_body uuid purge self).1 = f self.
Proof.
  intros Hf. unfold del_member_body, getattr. rewrite !py_bind_unfold. unfold gets.
  destruct (handle self) as [h|]; simpl; [|done].
  rewrite py_bind_unfold. unfold lift_outcome.
  destruct (tables.get_node h) as [rows|e]; simpl; [|done].
  destruct purge; [by apply recreate_frame|].
  case_bool_decide; [by apply recreate_frame|].
  rewrite py_bind_unfold.
  pose proof (for_each_preserves
    (λ i j, on_handle (tables.remove_row (i - j)) ;; mret (j + 1)) f
    (merge_sort Z.le (matching_rows (list_to_set (str <$> uuid)) rows))) as Hloop.
  match goal with |- context [for_each ?b ?l 0 self] =>
    specialize (Hloop ltac:(apply Forall_forall; intros i _ j s;
      rewrite py_bind_unfold;
      pose proof (on_handle_frame f (tables.remove_row (i - j)) s Hf);
      by destruct (on_handle _ s) as [s' [[]|e]]) 0 self);
    destruct (for_each b l 0 self) as [s' [j|e]]
  end; done.
Qed.

(** X5.  [del_member] works on the file behind the handle only: the list
    [self.table] that [add_member] fills, the table description and the
    logger are the same after the call, whatever the object and the
    arguments and whether or not the call raises. *)
Theorem del_member_leaves_table uuid purge (self : t) :
  table (del_member uuid purge self).1 = table self
  ∧ _Members (del_member uuid purge self).1 = _Members self
  ∧ logger (del_member uuid purge self).1 = logger self
  ∧ access (del_member uuid purge self).1 = Released.
Proof.
  unfold del_member, _write_state.
  pose proof (del_member_body_frame (λ s, (table s, _Members s, logger s))
                uuid purge (set_access Exclusive self) (λ _ _, eq_refl)) as Hf.
  destruct (del_member_body uuid purge (set_access Exclusive self)) as [s' out].
  simpl in *. by injection Hf as -> -> ->.
Qed.

(** *** A file without the members node *)

Lemma iterrows_no_node {A} (col : Member.t → outcome A) (self : t) :
  no_members_node self →
  iterrows col self = (self, Raise (NoSuchNodeError "/members")).
Proof.
  intros Hno. unfold iterrows. by rewrite py_bind_unfold, (getattr_some _ _ _ _ Hno).
Qed.

(** X6.  When the file behind the handle has no [/members] node, the call
    [get_node] of the first line raises: [del_member], [get_member] and the
    four listings raise [NoSuchNodeError] and leave the object as it was. *)
Theorem no_members_node_raises uuid purge u path (self : t) :
  no_members_node self →
  del_member uuid purge self
  = (set_access Released self, Raise (NoSuchNodeError "/members"))
  ∧ get_member u self
    = (set_access Released self, Raise (NoSuchNodeError "/members"))
  ∧ get_members_uuid self
    = (set_access Released self, Raise (NoSuchNodeError "/members"))
  ∧ get_members_name self
    = (set_access Released self, Raise (NoSuchNodeError "/members"))
  ∧ get_members_containertype self
    = (set_access Released self, Raise (NoSuchNodeError "/members"))
  ∧ get_members_location path self
    = (set_access Released self, Raise (NoSuchNodeError "/members")).
Proof.
  intros Hno. split; [|split].
  - unfold del_member, _write_state, del_member_body.
    by rewrite py_bind_unfold, (getattr_some _ _ (set_access Exclusive self) _ Hno).
  - unfold get_member, _read_state, get_member_body.
    by rewrite py_bind_unfold, (getattr_some _ _ (set_access Shared self) _ Hno).
  - unfold get_members_uuid, get_members_name, get_members_containertype,
      get_members_location, _read_state.
    by rewrite !(iterrows_no_node _ (set_access Shared self)).
Qed.

(** *** [get_member] as a lookup *)

Lemma first_with_lookup uuid rows (n : nat) r :
  rows !! n = Some r → Member.uuid r = uuid →
  uuid ∉ Member.uuid <$> take n rows →
  first_with uuid rows = Some r.
Proof.
  intros Hlook Hu Hfirst. unfold first_with.
  rewrite <- (take_drop_middle rows n r Hlook), filter_app, filter_cons.
  rewrite decide_True by done.
  replace (filter (λ row, Member.uuid row = uuid) (take n rows)) with (@nil Member.t);
    [done|].
  symmetry. apply length_zero_iff_nil. apply Nat.le_0_r.
  destruct (filter _ (take n rows)) as [|x l] eqn:Hf; [done|]. exfalso.
  assert (x ∈ filter (λ row, Member.uuid row = uuid) (take n rows)) as Hx
    by (rewrite Hf; left).
  apply list_elem_of_filter in Hx as [Hxu Hx]. apply Hfirst.
  rewrite <- Hxu. by apply list_elem_of_fmap_2.
Qed.

Lemma first_with_None uuid rows :
  first_with uuid rows = None ↔ uuid ∉ Member.uuid <$> rows.
Proof.
  unfold first_with. rewrite head_None. split.
  - intros Hnil [r [-> Hr]]%list_elem_of_fmap.
    assert (r ∈ filter (λ row, Member.uuid row = Member.uuid r) rows) as Hin
      by (by apply list_elem_of_filter).
    rewrite Hnil in Hin. by apply elem_of_nil in Hin.
  - intros Hnot. destruct (filter _ rows) as [|x l] eqn:Hf; [done|]. exfalso.
    assert (x ∈ filter (λ row, Member.uuid row = uuid) rows) as Hx
      by (rewrite Hf; left).
    apply list_elem_of_filter in Hx as [Hxu Hx]. apply Hnot.
    rewrite <- Hxu. by apply list_elem_of_fmap_2.
Qed.

(** What [get_member] answers for an uuid of plain characters, in terms of
    the rows and the logger. *)
Lemma get_member_value uuid rows (self : t) :
  stores self rows → tables.plain uuid = true →
  (get_member uuid self).2
  = match first_with uuid rows with
    | Some r => Return (Some r)
    | None => match logger self with
              | Some _ => Return None
              | None => Raise (AttributeError "logger")
              end
    end.
Proof.
  intros Hst Hplain. destruct (decide (uuid ∈ Member.uuid <$> rows)) as [Hin|Hnot].
  - unfold get_member, _read_state, get_member_body.
    rewrite py_bind_unfold, (getattr_some _ _ (set_access Shared self) _ Hst).
    rewrite py_bind_unfold. unfold lift_outcome. simpl.
    rewrite py_bind_unfold, where_plain by done. unfold enumerate.
    destruct (filter _ (zip _ rows)) as [|[n r] rest] eqn:Hf.
    { by apply where_uuid_nil in Hf. }
    apply where_uuid_head in Hf as (Hk & Hlook & Hu & Hfirst). simpl.
    replace (n - 0) with n in * by lia. rewrite Hlook.
    by rewrite (first_with_lookup uuid rows (Z.to_nat n) r).
  - rewrite (proj2 (first_with_None uuid rows) Hnot).
    destruct (logger self) as [records|] eqn:Hlog.
    + by rewrite (get_member_absent uuid rows records).
    + by rewrite (get_member_absent_no_logger uuid rows).
Qed.

(** X7.  On an object whose handle holds a members table, [get_member] on
    an uuid of plain characters that some row carries returns the first
    such row, in table order, and leaves the object as it was: nothing is
    logged. *)
Theorem get_member_first_row uuid rows (self : t) :
  stores self rows → tables.plain uuid = true → uuid ∈ Member.uuid <$> rows →
  ∃ (i : nat) r,
    rows !! i = Some r ∧ Member.uuid r = uuid
    ∧ (uuid ∉ Member.uuid <$> take i rows)
    ∧ get_member uuid self = (set_access Released self, Return (Some r)).
Proof.
  intros Hst Hplain Hin. unfold get_member, _read_state, get_member_body.
  rewrite py_bind_unfold, (getattr_some _ _ (set_access Shared self) _ Hst).
  rewrite py_bind_unfold. unfold lift_outcome. simpl.
  rewrite py_bind_unfold, where_plain by done. unfold enumerate.
  destruct (filter _ (zip _ rows)) as [|[n r] rest] eqn:Hf.
  { by apply where_uuid_nil in Hf. }
  apply where_uuid_head in Hf as (Hk & Hlook & Hu & Hfirst). simpl.
  replace (n - 0) with n in * by lia. rewrite Hlook.
  by exists (Z.to_nat n), r.
Qed.

Lemma first_with_kept_other uuid u rows :
  u ∉ uuid → first_with u (kept uuid rows) = first_with u rows.
Proof.
  intros Hu. unfold first_with, kept. rewrite list_filter_filter. f_equal.
  apply list_filter_iff. intros row. split; [tauto|].
  intros Hrow. split; [done|]. by rewrite Hrow.
Qed.

Lemma first_with_kept_removed uuid u rows :
  u ∈ uuid → first_with u (kept uuid rows) = None.
Proof.
  intros Hu. apply first_with_None.
  intros [r [-> Hr]]%list_elem_of_fmap.
  by apply list_elem_of_filter in Hr as [Hnot _].
Qed.

(** X8.  On an object whose handle holds a members table and that has
    [_Members], removing other ids does not change what [get_member]
    answers for an id of plain characters: the answer after [del_member] is
    the answer before it. *)
Theorem get_member_after_del_member_other uuid u rows description (self : t) :
  stores self rows → _Members self = Some description →
  tables.plain u = true → u ∉ uuid →
  (get_member u (del_member uuid false self).1).2 = (get_member u self).2.
Proof.
  intros Hst Hd Hplain Hu.
  rewrite (del_member_rows uuid rows description self) by done.
  simpl. rewrite (get_member_value u (kept uuid rows)) by done.
  rewrite (get_member_value u rows self) by done.
  by rewrite first_with_kept_other.
Qed.

(** X9.  On an object whose handle holds a members table and that has
    [_Members] and a logger, after [del_member] of an id of plain
    characters [get_member] finds no row for it, even when several rows
    carried it. *)
Theorem get_member_after_del_member uuid u rows description records (self : t) :
  stores self rows → _Members self = Some description →
  logger self = Some records → tables.plain u = true → u ∈ uuid →
  (get_member u (del_member uuid false self).1).2 = Return None.
Proof.
  intros Hst Hd Hlog Hplain Hu.
  rewrite (del_member_rows uuid rows description self) by done.
  simpl. rewrite (get_member_value u (kept uuid rows)) by done.
  rewrite first_with_kept_removed by done. simpl. by rewrite Hlog.
Qed.

(** *** Reading changes nothing *)

Lemma iterrows_state {A} (col : Member.t → outcome A) (self : t) :
  (iterrows col self).1 = self.
Proof.
  unfold iterrows, getattr. rewrite !py_bind_unfold. unfold gets.
  destruct (handle self) as [h|]; simpl; [|done].
  rewrite py_bind_unfold. unfold lift_outcome.
  destruct (tables.get_node h) as [rows|e]; simpl; [|done].
  apply (for_each_preserves _ id), Forall_forall.
  intros x _ acc s. rewrite py_bind_unfold. by destruct (col x).
Qed.

(** X10.  The readers are read-only: the four listings return the object
    as it was, and [get_member] changes at most the logger, by the one
    record of a miss. *)
Theorem readers_change_nothing u path (self : t) :
  (get_members_uuid self).1 = set_access Released self
  ∧ (get_members_name self).1 = set_access Released self
  ∧ (get_members_containertype self).1 = set_access Released self
  ∧ (get_members_location path self).1 = set_access Released self
  ∧ ((get_member u self).1 = set_access Released self
     ∨ ∃ records,
         logger self = Some records
         ∧ (get_member u self).2 = Return None
         ∧ (get_member u self).1
           = set_access Released
               (set_logger (records ++ [(INFO, "No such member in this Group.")])
                  self)).
Proof.
  assert (∀ A (col : Member.t → outcome A),
            (_read_state (iterrows col) self).1 = set_access Released self) as Hlist.
  { intros A col. unfold _read_state.
    pose proof (iterrows_state col (set_access Shared self)) as Hs.
    destruct (iterrows col (set_access Shared self)) as [s' out]. simpl in *.
    by subst. }
  do 4 (split; [apply Hlist|]).
  unfold get_member, _read_state, get_member_body, getattr.
  rewrite !py_bind_unfold. unfold gets. simpl.
  destruct (handle self) as [h|]; simpl; [|by left].
  rewrite py_bind_unfold. unfold lift_outcome.
  destruct (tables.get_node h) as [rows|e]; simpl; [|by left].
  rewrite py_bind_unfold.
  destruct (tables.where_ _ rows) as [found|e]; simpl; [|by left].
  destruct (fst <$> found) as [|n ?]; simpl.
  - rewrite py_bind_unfold. unfold logger_info, getattr.
    rewrite !py_bind_unfold. unfold gets. simpl.
    destruct (logger self) as [records|] eqn:Hlog; simpl; [|by left].
    right. by exists records.
  - destruct (rows !! Z.to_nat n); by left.
Qed.

(** *** The objects the class itself makes *)

(** X11.  No method of the class binds [self.handle].  On every object
    that method calls make from a new [_BundleBackend()], [del_member],
    [get_member] and the four listings therefore raise [AttributeError] and
    change nothing, whatever was added before; the uuids of [self.table]
    are unique. *)
Theorem reachable_backend_has_no_handle uuid purge u path (self : t) :
  reachable self →
  handle self = None
  ∧ NoDup (Member.uuid <$> table self)
  ∧ del_member uuid purge self
    = (set_access Released self, Raise (AttributeError "handle"))
  ∧ get_member u self = (set_access Released self, Raise (AttributeError "handle"))
  ∧ get_members_uuid self
    = (set_access Released self, Raise (AttributeError "handle"))
  ∧ get_members_name self
    = (set_access Released self, Raise (AttributeError "handle"))
  ∧ get_members_containertype self
    = (set_access Released self, Raise (AttributeError "handle"))
  ∧ get_members_location path self
    = (set_access Released self, Raise (AttributeError "handle")).
Proof.
  intros [Hh Hn]%reachable_no_handle. do 2 (split; [done|]).
  split; [by apply del_member_no_handle|].
  split; [by apply get_member_no_handle|].
  unfold get_members_uuid, get_members_name, get_members_containertype,
    get_members_location, _read_state.
  by rewrite !(iterrows_no_handle _ (set_access Shared self)).
Qed.

End backend_more.

(** * Further properties of [Bundle] *)

Section bundle_more.
Import Bundle.
Context `{Filesystem}.

Lemma add_new_bound c out us k (b : _BundleBackend.t) :
  add_new c out (mk b (Some us) k)
  = if bool_decide (Container.uuid c ∈ us) then (mk b (Some us) k, Return out)
    else (mk b (Some (us ++ [Container.uuid c])) k, Return (out ++ [c])).
Proof.
  unfold add_new, getattr. rewrite !py_bind_unfold. unfold gets. simpl.
  by case_bool_decide.
Qed.

Lemma add_new_loop_bound cs : ∀ out us k (b : _BundleBackend.t),
  for_each add_new cs out (mk b (Some us) k)
  = (mk b (Some (us ++ (Container.uuid <$> fresh us cs))) k,
     Return (out ++ fresh us cs)).
Proof.
  induction cs as [|c cs IH]; intros out us k b; simpl.
  - by rewrite !app_nil_r.
  - rewrite py_bind_unfold, add_new_bound. case_bool_decide; [apply IH|].
    rewrite IH. simpl. by rewrite <- !app_assoc.
Qed.

Lemma add_containers_bound cs : ∀ out us k (b : _BundleBackend.t),
  for_each add_item (VContainer <$> cs) out (mk b (Some us) k)
  = (mk b (Some (us ++ (Container.uuid <$> fresh us cs))) k,
     Return (out ++ fresh us cs)).
Proof.
  induction cs as [|c cs IH]; intros out us k b; simpl.
  - by rewrite !app_nil_r.
  - rewrite py_bind_unfold, add_new_bound. case_bool_decide; [apply IH|].
    rewrite IH. simpl. by rewrite <- !app_assoc.
Qed.

Lemma extend_bound out us cs (b : _BundleBackend.t) :
  extend out (mk b us (Some cs)) = (mk b us (Some (cs ++ out)), Return tt).
Proof. done. Qed.

Lemma fresh_seen cs : ∀ us,
  (∀ c, c ∈ cs → Container.uuid c ∈ us) → fresh us cs = [].
Proof.
  induction cs as [|c cs IH]; intros us Hall; simpl; [done|].
  rewrite bool_decide_true by (apply Hall; left).
  apply IH. intros c' Hc'. apply Hall. by right.
Qed.

Lemma fresh_covers cs : ∀ us c,
  c ∈ cs → Container.uuid c ∈ us ++ (Container.uuid <$> fresh us cs).
Proof.
  induction cs as [|c' cs IH]; intros us c Hc; [by apply elem_of_nil in Hc|].
  simpl. apply elem_of_cons in Hc as [->|Hc].
  - case_bool_decide as Hin; [by apply elem_of_app; left|].
    simpl. apply elem_of_app. right. left.
  - case_bool_decide as Hin; [by apply IH|].
    simpl. specialize (IH (us ++ [Container.uuid c']) c Hc).
    by rewrite <- app_assoc in IH.
Qed.

Lemma fresh_NoDup cs : ∀ us,
  NoDup us → NoDup (us ++ (Container.uuid <$> fresh us cs)).
Proof.
  induction cs as [|c cs IH]; intros us Hnd; simpl; [by rewrite app_nil_r|].
  case_bool_decide as Hin; [by apply IH|].
  simpl. rewrite cons_middle, app_assoc. apply IH.
  apply NoDup_app. repeat split; [done| |apply NoDup_singleton].
  intros x Hx [->|[]%elem_of_nil]%elem_of_cons. done.
Qed.

(** X12.  [_list] of a Bundle with both lists bound: after adding
    containers the list holds the old members, in place, followed by the
    containers that were new, in the order given, one per uuid; no uuid is
    recorded twice. *)
Theorem list_after_add cs us members (b : _BundleBackend.t) :
  NoDup us →
  let self := mk b (Some us) (Some members) in
  _list self = (self, Return members)
  ∧ add (VContainer <$> cs) self
    = (mk b (Some (us ++ (Container.uuid <$> fresh us cs)))
         (Some (members ++ fresh us cs)), Return tt)
  ∧ (_list (add (VContainer <$> cs) self).1).2 = Return (members ++ fresh us cs)
  ∧ NoDup (us ++ (Container.uuid <$> fresh us cs))
  ∧ (∀ c, c ∈ cs → Container.uuid c ∈ us ++ (Container.uuid <$> fresh us cs)).
Proof.
  intros Hnd self. split; [done|].
  assert (add (VContainer <$> cs) self
          = (mk b (Some (us ++ (Container.uuid <$> fresh us cs)))
               (Some (members ++ fresh us cs)), Return tt)) as Hadd.
  { unfold add, self. by rewrite py_bind_unfold, add_containers_bound, extend_bound. }
  rewrite Hadd. split; [done|]. split; [done|].
  split; [by apply fresh_NoDup|]. intros c. apply fresh_covers.
Qed.

(** X13.  On a Bundle whose [_uuids] and [_containers] are bound, an
    exception in [add] leaves the seen-set ahead of the members: the
    containers met before a tuple are recorded by uuid, the tuple raises,
    and the line that appends them is never reached.  A later [add] of the
    same containers returns normally and still does not add them. *)
Theorem add_failure_loses_containers cs l tail us members (b : _BundleBackend.t) :
  let self := mk b (Some us) (Some members) in
  let seen := mk b (Some (us ++ (Container.uuid <$> fresh us cs))) (Some members) in
  add ((VContainer <$> cs) ++ VTuple l :: tail) self
  = (seen, Raise (TypeError "coercing to Unicode: need string or buffer"))
  ∧ add (VContainer <$> cs) seen = (seen, Return tt).
Proof.
  intros self seen. split.
  - unfold add, self. rewrite py_bind_unfold, for_each_app, add_containers_bound.
    done.
  - unfold add, seen. rewrite py_bind_unfold, add_containers_bound.
    rewrite (fresh_seen cs) by (intros c Hc; by apply fresh_covers).
    rewrite extend_bound. simpl. by rewrite !app_nil_r.
Qed.

(** X14.  On a Bundle whose [_uuids] and [_containers] are bound, the
    members of a nested list are appended when the recursive call returns,
    those of the enclosing call at its end: containers given before a
    nested list come after the containers of that list in the member
    sequence, while the seen-set records them in the order given. *)
Theorem add_nested_list_first xs ys zs us members (b : _BundleBackend.t) :
  let fx := fresh us xs in
  let us1 := us ++ (Container.uuid <$> fx) in
  let fy := fresh us1 ys in
  let us2 := us1 ++ (Container.uuid <$> fy) in
  let fz := fresh us2 zs in
  add ((VContainer <$> xs) ++ VList (VContainer <$> ys) :: (VContainer <$> zs))
      (mk b (Some us) (Some members))
  = (mk b (Some (us2 ++ (Container.uuid <$> fz))) (Some (members ++ fy ++ fx ++ fz)),
     Return tt).
Proof.
  intros fx us1 fy us2 fz. unfold add.
  rewrite py_bind_unfold, for_each_app, add_containers_bound. simpl.
  rewrite !py_bind_unfold, add_containers_bound. simpl.
  unfold set_containers. simpl.
  rewrite add_containers_bound, extend_bound. simpl.
  subst fx us1 fy us2 fz. by rewrite <- (app_assoc members).
Qed.

(** *** The seen-set and the members *)

Lemma for_each_invariant {S A B} (body : A → B → py S B) (I : S → B → Prop) xs :
  Forall (λ x, ∀ acc s s' acc',
            I s acc → body x acc s = (s', Return acc') → I s' acc') xs →
  ∀ acc s s' acc',
    I s acc → for_each body xs acc s = (s', Return acc') → I s' acc'.
Proof.
  induction 1 as [|x xs Hx _ IH]; intros acc s s' acc' HI; simpl.
  - by intros [= <- <-].
  - rewrite py_bind_unfold. destruct (body x acc s) as [s1 [acc1|e]] eqn:Hb; [|done].
    intros Hrest. eapply IH; [|done]. by eapply Hx.
Qed.

Lemma add_new_in_step c members0 extra out self self' out' :
  in_step members0 extra self out →
  add_new c out self = (self', Return out') →
  in_step members0 extra self' out'.
Proof.
  intros [(us & cs & Hu & Hc & Hnd & Hperm) Hpre]. destruct self as [b u k].
  simpl in *. subst u k. rewrite add_new_bound. case_bool_decide as Hin.
  - intros [= <- <-]. split; [|done]. by exists us, cs.
  - intros [= <- <-]. split; [|done]. exists (us ++ [Container.uuid c]), cs.
    repeat split; try done.
    + apply NoDup_app. repeat split; [done| |apply NoDup_singleton].
      intros x Hx [->|[]%elem_of_nil]%elem_of_cons. done.
    + rewrite Hperm. rewrite !app_assoc, (fmap_app _ _ [c]). done.
Qed.

Lemma add_item_in_step container : ∀ members0 extra out self self' out',
  in_step members0 extra self out →
  add_item container out self = (self', Return out') →
  in_step members0 extra self' out'.
Proof.
  induction container as [s|c|l IH|l _| |l _] using pyval_nested_ind;
    intros members0 extra out self self' out' HI; try done.
  - simpl. rewrite py_bind_unfold. unfold lift_outcome. simpl.
    destruct (os_path_exists s); [|by intros [= <- <-]].
    apply (for_each_invariant add_new (in_step members0 extra)); [|done].
    apply Forall_forall. intros c _ acc s1 s2 acc2. apply add_new_in_step.
  - apply add_new_in_step. done.
  - simpl. rewrite py_bind_unfold.
    destruct (for_each add_item l [] self) as [s1 [inner|e]] eqn:Hloop; [|done].
    assert (in_step members0 (extra ++ out) s1 inner) as [Hsync Hpre].
    { eapply (for_each_invariant add_item (in_step members0 (extra ++ out)));
        [|  |exact Hloop].
      - eapply Forall_impl; [exact IH|]. intros v Hv acc s2 s3 acc3. apply Hv.
      - destruct HI as [Hs Hp]. split; [|done]. by rewrite app_nil_r. }
    destruct Hsync as (us & cs & Hu & Hc & Hnd & Hperm).
    destruct Hpre as (cs' & Hc' & Hpre).
    destruct s1 as [b u k]. simpl in *. subst u k. injection Hc' as <-.
    rewrite py_bind_unfold, extend_bound. intros [= <- <-].
    split.
    + exists us, (cs ++ inner). repeat split; try done.
      rewrite Hperm. apply fmap_Permutation.
      rewrite <- (app_assoc cs inner). f_equiv. apply Permutation_app_comm.
    + exists (cs ++ inner). split; [done|]. by apply prefix_app_r.
Qed.

(** X15.  A call of [add] that returns keeps the seen-set and the members in
    step: if the recorded uuids were the uuids of the members, each once,
    they are so again afterwards; the old members are still the head of the
    list, in place, no two members share an uuid, and the backend is
    untouched. *)
Theorem add_keeps_in_step containers (self self' : t) :
  synced self [] →
  add containers self = (self', Return tt) →
  synced self' []
  ∧ (∃ cs cs', _containers self = Some cs ∧ _containers self' = Some cs'
               ∧ cs `prefix_of` cs' ∧ NoDup (Container.uuid <$> cs'))
  ∧ backend self' = backend self.
Proof.
  intros Hs Hadd. pose proof (add_backend containers self) as Hb.
  rewrite Hadd in Hb. simpl in Hb. split; [|split; [|done]].
  all: unfold add in Hadd; rewrite py_bind_unfold in Hadd.
  all: destruct (for_each add_item containers [] self) as [s1 [out|e]] eqn:Hloop;
    [|done].
  all: destruct Hs as (us0 & cs0 & Hu0 & Hc0 & Hnd0 & Hperm0).
  all: assert (in_step cs0 [] s1 out) as [Hsync Hpre]
    by (eapply (for_each_invariant add_item (in_step cs0 [])); [| |exact Hloop];
        [apply Forall_forall; intros v _; apply add_item_in_step
        |split; [by exists us0, cs0|by exists cs0]]).
  all: destruct Hsync as (us & cs & Hu & Hc & Hnd & Hperm).
  all: destruct Hpre as (cs' & Hc' & Hpre).
  all: destruct s1 as [b u k]; simpl in *; subst u k; injection Hc' as <-.
  all: rewrite extend_bound in Hadd; injection Hadd as <-.
  - exists us, (cs ++ out). by rewrite app_nil_r.
  - exists cs0, (cs ++ out). repeat split; try done.
    + by apply prefix_app_r.
    + simpl in Hperm. by rewrite <- Hperm.
Qed.

(** *** Adding again *)

Lemma add_item_seen container : ∀ out us cs (b : _BundleBackend.t),
  documented container = true →
  (∀ c, c ∈ resolved container → Container.uuid c ∈ us) →
  add_item container out (mk b (Some us) (Some cs))
  = (mk b (Some us) (Some cs), Return out).
Proof.
  induction container as [s|c|l IH|l _| |l _] using pyval_nested_ind;
    intros out us cs b Hdoc Hseen; try done.
  - simpl in *. rewrite py_bind_unfold. unfold lift_outcome. simpl.
    destruct (os_path_exists s); [|done].
    rewrite add_new_loop_bound, fresh_seen by done. simpl. by rewrite !app_nil_r.
  - simpl. rewrite add_new_bound, bool_decide_true; [done|]. apply Hseen. left.
  - simpl in *. rewrite py_bind_unfold.
    assert (∀ out, for_each add_item l out (mk b (Some us) (Some cs))
                   = (mk b (Some us) (Some cs), Return out)) as ->.
    { clear out. induction IH as [|x l Hx _ IHl]; intros out; simpl; [done|].
      apply andb_true_iff in Hdoc as [Hdx Hdl].
      rewrite py_bind_unfold, Hx; [apply IHl| |]; try done.
      - intros c Hc. apply Hseen. simpl. apply elem_of_app. by right.
      - intros c Hc. apply Hseen. simpl. apply elem_of_app. by left. }
    rewrite py_bind_unfold, extend_bound. simpl. by rewrite app_nil_r.
Qed.

Lemma add_loop_records l :
  Forall records_all l →
  ∀ out self self' out' us,
    for_each add_item l out self = (self', Return out') →
    _uuids self = Some us →
    forallb documented l = true
    ∧ ∃ us', _uuids self' = Some us' ∧ us ⊆ us'
             ∧ ∀ c, c ∈ flat_map resolved l → Container.uuid c ∈ us'.
Proof.
  induction 1 as [|x l Hx _ IH]; intros out self self' out' us; simpl.
  - intros [= <- <-] Hu. split; [done|]. exists us. repeat split; [done..|].
    intros c Hc. by apply elem_of_nil in Hc.
  - rewrite py_bind_unfold.
    destruct (add_item x out self) as [s1 [out1|e]] eqn:Hstep; [|done].
    intros Hrest Hu.
    destruct (Hx _ _ _ _ _ Hstep Hu) as (Hdx & us1 & Hu1 & Hsub1 & Hres1).
    destruct (IH _ _ _ _ _ Hrest Hu1) as (Hdl & us2 & Hu2 & Hsub2 & Hres2).
    split; [by rewrite Hdx, Hdl|]. exists us2. repeat split; [done|by etrans|].
    intros c [Hc|Hc]%elem_of_app; [apply Hsub2, Hres1|apply Hres2]; done.
Qed.

Lemma add_item_records container : records_all container.
Proof.
  induction container as [s|c|l IH|l _| |l _] using pyval_nested_ind;
    intros out self self' out' us; try done.
  - simpl. rewrite py_bind_unfold. unfold lift_outcome. simpl.
    destruct self as [b u k]. simpl. intros Hloop ->. split; [done|].
    destruct (os_path_exists s).
    + rewrite add_new_loop_bound in Hloop. injection Hloop as <- <-. simpl.
      eexists. split; [done|]. split; [by apply list_subseteq_app_l|].
      intros c. apply fresh_covers.
    + injection Hloop as <- <-. exists us. repeat split; [done..|].
      intros c Hc. by apply elem_of_nil in Hc.
  - simpl. destruct self as [b u k]. simpl. intros Hnew ->. split; [done|].
    rewrite add_new_bound in Hnew. case_bool_decide as Hin.
    + injection Hnew as <- <-. exists us. repeat split; [done..|].
      by intros c' ->%list_elem_of_singleton.
    + injection Hnew as <- <-. simpl. eexists. split; [done|].
      split; [by apply list_subseteq_app_l|].
      intros c' ->%list_elem_of_singleton. apply elem_of_app. right. left.
  - simpl. rewrite py_bind_unfold.
    destruct (for_each add_item l [] self) as [s1 [inner|e]] eqn:Hloop; [|done].
    rewrite py_bind_unfold. intros Hext Hu.
    destruct (add_loop_records l IH _ _ _ _ _ Hloop Hu) as (Hd & us1 & Hu1 & Hsub & Hres).
    split; [done|]. exists us1. repeat split; [|done..].
    unfold extend, getattr in Hext. rewrite !py_bind_unfold in Hext.
    unfold gets in Hext.
    destruct (_containers s1); simpl in Hext; [|done].
    by injection Hext as <- <-.
Qed.

(** X16.  Adding is idempotent: when a call of [add] has returned, the same
    call made again returns too and changes nothing, whatever mix of
    containers, paths and nested lists was given. *)
Theorem add_twice containers us (self self' : t) :
  _uuids self = Some us →
  add containers self = (self', Return tt) →
  add containers self' = (self', Return tt).
Proof.
  intros Hu Hadd. unfold add in Hadd. rewrite py_bind_unfold in Hadd.
  destruct (for_each add_item containers [] self) as [s1 [out|e]] eqn:Hloop; [|done].
  assert (Forall records_all containers) as Hall
    by (apply Forall_forall; intros; apply add_item_records).
  destruct (add_loop_records containers Hall _ _ _ _ _ Hloop Hu)
    as (Hdoc & us1 & Hu1 & _ & Hres).
  destruct s1 as [b u [cs|]]; [|done]. simpl in Hu1. subst u.
  rewrite extend_bound in Hadd. injection Hadd as <-.
  unfold add. rewrite py_bind_unfold.
  assert (∀ l acc, forallb documented l = true →
            (∀ c, c ∈ flat_map resolved l → Container.uuid c ∈ us1) →
            for_each add_item l acc (mk b (Some us1) (Some (cs ++ out)))
            = (mk b (Some us1) (Some (cs ++ out)), Return acc)) as Hnoop.
  { induction l as [|x l IHl]; intros acc Hd Hr; simpl; [done|].
    apply andb_true_iff in Hd as [Hdx Hdl].
    rewrite py_bind_unfold, add_item_seen; [apply IHl| |]; try done.
    - intros c Hc. apply Hr. simpl. apply elem_of_app. by right.
    - intros c Hc. apply Hr. simpl. apply elem_of_app. by left. }
  rewrite Hnoop, extend_bound by done. simpl. by rewrite app_nil_r.
Qed.

End bundle_more.

(** * Further properties of [_CollectionBase.add] *)

Lemma for_each_rel {S A B} (body : A → B → py S B) (R : relation S)
    `{!Reflexive R, !Transitive R} xs :
  Forall (λ x, ∀ acc s, R s (body x acc s).1) xs →
  ∀ acc s, R s (for_each body xs acc s).1.
Proof.
  induction 1 as [|x xs Hx _ IH]; intros acc s; simpl; [done|].
  rewrite py_bind_unfold. specialize (Hx acc s).
  destruct (body x acc s) as [s' [acc'|e]]; simpl in *; [|done].
  by etrans.
Qed.

Section collection_more.
Import _BundleBackend.
Context `{Filesystem}.

Global Instance collection_extends_refl : Reflexive collection_extends.
Proof. intros coll. apply extends_refl. Qed.

Global Instance collection_extends_trans : Transitive collection_extends.
Proof. intros c1 c2 c3. apply extends_trans. Qed.

Lemma register_extends cs (coll : _CollectionBase.t) :
  collection_extends coll (_CollectionBase.register cs coll).1.
Proof.
  unfold _CollectionBase.register.
  apply (for_each_rel _ collection_extends), Forall_forall.
  intros c _ [] s. unfold zoom.
  pose proof (add_member_extends_aux (Container.uuid c) (Container.name c)
                (Container.containertype c) (Container.location c)
                (_CollectionBase.backend s)) as Hext.
  by destruct (add_member _ _ _ _ _) as [b out].
Qed.

Lemma collection_add_item_extends container : ∀ out (coll : _CollectionBase.t),
  collection_extends coll (_CollectionBase.add_item container out coll).1.
Proof.
  assert (∀ l, Forall (λ v, ∀ out coll,
              collection_extends coll (_CollectionBase.add_item v out coll).1) l →
            ∀ out (coll : _CollectionBase.t),
              collection_extends coll
                (_CollectionBase.add_item (VList l) out coll).1) as Hnest.
  { intros l IH out coll. simpl. rewrite py_bind_unfold.
    pose proof (for_each_rel _CollectionBase.add_item collection_extends l IH [] coll)
      as Hloop.
    destruct (for_each _CollectionBase.add_item l [] coll) as [s1 [inner|e]];
      simpl in *; [|done].
    rewrite py_bind_unfold. pose proof (register_extends inner s1) as Hreg.
    destruct (_CollectionBase.register inner s1) as [s2 [[]|e]]; simpl in *;
      by etrans. }
  induction container as [s|c|l IH|l IH| |l IH] using pyval_nested_ind;
    intros out coll; try reflexivity.
  - simpl. rewrite py_bind_unfold. unfold lift_outcome. simpl.
    by destruct (os_path_exists s).
  - by apply Hnest.
  - by apply (Hnest l).
  - by apply (Hnest l).
Qed.

(** X17.  [_CollectionBase.add] only ever appends to the table of its
    backend: whatever the arguments, and whether or not the call raises,
    the records stored before are the head of the table afterwards,
    unchanged and in place, uuids that were unique are still unique, and
    the file behind the handle is the same. *)
Theorem collection_add_only_appends containers (coll : _CollectionBase.t) :
  extends (_CollectionBase.backend coll)
          (_CollectionBase.backend (_CollectionBase.add containers coll).1).
Proof.
  unfold _CollectionBase.add. rewrite py_bind_unfold.
  pose proof (for_each_rel _CollectionBase.add_item collection_extends containers)
    as Hloop.
  specialize (Hloop ltac:(apply Forall_forall; intros;
                          apply collection_add_item_extends) [] coll).
  destruct (for_each _CollectionBase.add_item containers [] coll)
    as [s1 [outconts|e]]; simpl in *; [|done].
  pose proof (register_extends outconts s1). by eapply extends_trans.
Qed.

Lemma register_app xs ys (coll : _CollectionBase.t) :
  _CollectionBase.register (xs ++ ys) coll
  = match _CollectionBase.register xs coll with
    | (coll', Return _) => _CollectionBase.register ys coll'
    | (coll', Raise e) => (coll', Raise e)
    end.
Proof.
  unfold _CollectionBase.register. rewrite for_each_app.
  by destruct (for_each _ xs tt coll) as [s' [[]|e]].
Qed.

Lemma uuid_member_of (cs : list Container.t) :
  Member.uuid <$> (member_of <$> cs) = Container.uuid <$> cs.
Proof. rewrite <- list_fmap_compose. by apply list_fmap_ext. Qed.

(** Containers with new, distinct uuids are registered one after the
    other. *)
Lemma register_new cs : ∀ (coll : _CollectionBase.t),
  NoDup ((Member.uuid <$> table (_CollectionBase.backend coll))
         ++ (Container.uuid <$> cs)) →
  ∃ coll',
    _CollectionBase.register cs coll = (coll', Return tt)
    ∧ table (_CollectionBase.backend coll')
      = table (_CollectionBase.backend coll) ++ (member_of <$> cs)
    ∧ handle (_CollectionBase.backend coll') = handle (_CollectionBase.backend coll).
Proof.
  induction cs as [|c cs IH]; intros coll Hnd.
  - exists coll. by rewrite app_nil_r.
  - change (c :: cs) with ([c] ++ cs). rewrite register_app, register_one.
    rewrite add_member_absent.
    2:{ apply NoDup_app in Hnd as (_ & Hdisj & _). intros Hin.
        apply (Hdisj _ Hin). left. }
    destruct (IH (_CollectionBase.mk
                (set_access Released
                   (set_table (table (_CollectionBase.backend coll) ++ [member_of c])
                      (_CollectionBase.backend coll))))) as (coll' & Hr & Ht & Hh).
    { simpl. rewrite fmap_app, <- app_assoc. done. }
    exists coll'. split; [exact Hr|]. simpl in *. split; [|done].
    by rewrite Ht, <- app_assoc.
Qed.

Lemma collection_add_loop_order l :
  Forall registers_in_order l →
  ∀ out (coll : _CollectionBase.t),
    forallb registrable l = true →
    NoDup ((Member.uuid <$> table (_CollectionBase.backend coll))
           ++ (Container.uuid <$> flat_map nested_order l)) →
    ∃ coll',
      for_each _CollectionBase.add_item l out coll
      = (coll', Return (out ++ flat_map direct l))
      ∧ table (_CollectionBase.backend coll')
        = table (_CollectionBase.backend coll) ++ (member_of <$> flat_map nested_order l)
      ∧ handle (_CollectionBase.backend coll') = handle (_CollectionBase.backend coll).
Proof.
  induction 1 as [|x l Hx _ IH]; intros out coll Hreg Hnd.
  - exists coll. simpl. by rewrite !app_nil_r.
  - simpl in *. apply andb_true_iff in Hreg as [Hrx Hrl].
    rewrite fmap_app, app_assoc in Hnd.
    destruct (Hx out coll Hrx) as (c1 & Hstep & Ht1 & Hh1).
    { by apply NoDup_app in Hnd as (? & _ & _). }
    destruct (IH (out ++ direct x) c1 Hrl) as (c2 & Hrest & Ht2 & Hh2).
    { by rewrite Ht1, fmap_app, uuid_member_of. }
    exists c2. rewrite py_bind_unfold, Hstep, Hrest.
    split; [by rewrite <- app_assoc|]. split; [|congruence].
    by rewrite Ht2, Ht1, fmap_app, <- app_assoc.
Qed.

Lemma collection_add_nested_order l out (coll : _CollectionBase.t) :
  Forall registers_in_order l →
  forallb registrable l = true →
  NoDup ((Member.uuid <$> table (_CollectionBase.backend coll))
         ++ (Container.uuid <$> (flat_map nested_order l ++ flat_map direct l))) →
  ∃ coll',
    _CollectionBase.add_item (VList l) out coll = (coll', Return out)
    ∧ table (_CollectionBase.backend coll')
      = table (_CollectionBase.backend coll)
        ++ (member_of <$> (flat_map nested_order l ++ flat_map direct l))
    ∧ handle (_CollectionBase.backend coll') = handle (_CollectionBase.backend coll).
Proof.
  intros IH Hreg Hnd. rewrite fmap_app, app_assoc in Hnd.
  destruct (collection_add_loop_order l IH [] coll Hreg) as (c1 & Hloop & Ht1 & Hh1).
  { by apply NoDup_app in Hnd as (? & _ & _). }
  destruct (register_new (flat_map direct l) c1) as (c2 & Hregd & Ht2 & Hh2).
  { by rewrite Ht1, fmap_app, uuid_member_of. }
  exists c2. simpl. rewrite py_bind_unfold, Hloop. simpl.
  rewrite py_bind_unfold, Hregd. split; [done|]. split; [|congruence].
  by rewrite Ht2, Ht1, fmap_app, <- app_assoc.
Qed.

Lemma collection_add_item_order container : registers_in_order container.
Proof.
  induction container as [s|c|l IH|l IH| |l IH] using pyval_nested_ind;
    intros out coll Hreg Hnd; try done.
  - exists coll. simpl. rewrite py_bind_unfold. unfold lift_outcome. simpl.
    rewrite !app_nil_r. by destruct (os_path_exists s); rewrite ?app_nil_r.
  - exists coll. simpl. by rewrite app_nil_r.
  - simpl direct. simpl in Hreg, Hnd. rewrite app_nil_r.
    by apply collection_add_nested_order.
  - simpl direct. simpl in Hreg, Hnd. rewrite app_nil_r.
    by apply (collection_add_nested_order l).
  - simpl direct. simpl in Hreg, Hnd. rewrite app_nil_r.
    by apply (collection_add_nested_order l).
Qed.

(** X18.  When no argument is a Bundle and the containers the arguments
    stand for are new to the table and have distinct uuids, [add] returns
    normally and has appended one record per container, in this order: for
    each nested list, tuple or Members object the containers of that nested
    call, as they are met, and after all of them the containers and the
    containers of the paths given to the call itself. *)
Theorem collection_add_registers_in_order containers (coll : _CollectionBase.t) :
  forallb registrable containers = true →
  NoDup ((Member.uuid <$> table (_CollectionBase.backend coll))
         ++ (Container.uuid <$> registration_order containers)) →
  ∃ coll',
    _CollectionBase.add containers coll = (coll', Return tt)
    ∧ table (_CollectionBase.backend coll')
      = table (_CollectionBase.backend coll)
        ++ (member_of <$> registration_order containers)
    ∧ handle (_CollectionBase.backend coll') = handle (_CollectionBase.backend coll).
Proof.
  intros Hreg Hnd. unfold registration_order in *.
  rewrite fmap_app, app_assoc in Hnd. unfold _CollectionBase.add.
  destruct (collection_add_loop_order containers) with (out := @nil Container.t)
    (coll := coll) as (c1 & Hloop & Ht1 & Hh1); [|done| |].
  { apply Forall_forall. intros. apply collection_add_item_order. }
  { by apply NoDup_app in Hnd as (? & _ & _). }
  destruct (register_new (flat_map direct containers) c1) as (c2 & Hregd & Ht2 & Hh2).
  { by rewrite Ht1, fmap_app, uuid_member_of. }
  exists c2. rewrite py_bind_unfold, Hloop. simpl. split; [done|].
  split; [|congruence]. by rewrite Ht2, Ht1, fmap_app, <- app_assoc.
Qed.

Lemma collection_collect cs : ∀ out (coll : _CollectionBase.t),
  for_each _CollectionBase.add_item (VContainer <$> cs) out coll
  = (coll, Return (out ++ cs)).
Proof.
  induction cs as [|c cs IH]; intros out coll; simpl; [by rewrite app_nil_r|].
  rewrite py_bind_unfold. unfold mret at 1, py_ret. rewrite IH.
  by rewrite <- app_assoc.
Qed.

(** X19.  A repeated uuid stops the call half-way: the containers before the
    first one whose uuid is already stored, or carried by an earlier
    argument, are registered, that one makes [add_member] raise, and the
    containers after it are not registered. *)
Theorem collection_add_stops_at_duplicate cs c rest (coll : _CollectionBase.t) :
  NoDup ((Member.uuid <$> table (_CollectionBase.backend coll))
         ++ (Container.uuid <$> cs)) →
  Container.uuid c ∈ (Member.uuid <$> table (_CollectionBase.backend coll))
                     ++ (Container.uuid <$> cs) →
  ∃ coll',
    _CollectionBase.add (VContainer <$> (cs ++ c :: rest)) coll
    = (coll', Raise (TypeError "list indices must be integers, not list"))
    ∧ table (_CollectionBase.backend coll')
      = table (_CollectionBase.backend coll) ++ (member_of <$> cs)
    ∧ handle (_CollectionBase.backend coll') = handle (_CollectionBase.backend coll).
Proof.
  intros Hnd Hdup. unfold _CollectionBase.add.
  rewrite py_bind_unfold, collection_collect. simpl.
  destruct (register_new cs coll Hnd) as (c1 & Hreg & Ht & Hh).
  rewrite register_app, Hreg.
  change (c :: rest) with ([c] ++ rest). rewrite register_app, register_one.
  rewrite add_member_present by (by rewrite Ht, fmap_app, uuid_member_of).
  exists (_CollectionBase.mk (set_access Released (_CollectionBase.backend c1))).
  by repeat split.
Qed.

End collection_more.

(** * Instances of the further properties *)

Lemma del_member_idempotent_witness :
  stores (state_file rows_123) rows_123
  ∧ _BundleBackend._Members (state_file rows_123)
    = Some ["uuid"; "name"; "containertype"; "abspath"]
  ∧ _BundleBackend.del_member ["2"] false
      (_BundleBackend.del_member ["2"] false (state_file rows_123)).1
    = ((_BundleBackend.del_member ["2"] false (state_file rows_123)).1, Return tt).
Proof.
  split; [reflexivity|]. split; [reflexivity|].
  apply (del_member_idempotent ["2"] rows_123
           ["uuid"; "name"; "containertype"; "abspath"] (state_file rows_123));
    reflexivity.
Defined.

Lemma del_member_twice_witness :
  stores (state_file rows_123) rows_123
  ∧ _BundleBackend._Members (state_file rows_123)
    = Some ["uuid"; "name"; "containertype"; "abspath"]
  ∧ _BundleBackend.del_member ["3"] false
      (_BundleBackend.del_member ["1"] false (state_file rows_123)).1
    = _BundleBackend.del_member ["1"; "3"] false (state_file rows_123).
Proof.
  split; [reflexivity|]. split; [reflexivity|].
  apply (del_member_twice ["1"] ["3"] rows_123
           ["uuid"; "name"; "containertype"; "abspath"] (state_file rows_123));
    reflexivity.
Defined.

Lemma del_member_ids_as_set_witness :
  (∀ x : string, x ∈ ["2"; "2"] ↔ x ∈ ["2"])
  ∧ _BundleBackend.del_member ["2"; "2"] false (state_file rows_123)
    = _BundleBackend.del_member ["2"] false (state_file rows_123).
Proof.
  assert (∀ x : string, x ∈ ["2"; "2"] ↔ x ∈ ["2"]) as Hset.
  { intros x. rewrite !elem_of_cons. tauto. }
  split; [exact Hset|].
  exact (del_member_ids_as_set ["2"; "2"] ["2"] false (state_file rows_123) Hset).
Defined.

Lemma no_members_node_raises_witness :
  let self := _BundleBackend.mk [] (Some (tables.mkFile None)) None None Released in
  no_members_node self
  ∧ _BundleBackend.get_members_uuid self
    = (self, Raise (NoSuchNodeError "/members")).
Proof.
  intros self. split; [reflexivity|].
  apply (@no_members_node_raises sample_conditions [] false "1" "abspath" self).
  reflexivity.
Defined.

Lemma get_member_first_row_witness :
  let rows := [Member.mk "1" "A" Sim "/a"; Member.mk "2" "B" Group "/b";
               Member.mk "2" "C" Sim "/c"] in
  stores (state_file rows) rows
  ∧ tables.plain "2" = true
  ∧ "2" ∈ Member.uuid <$> rows
  ∧ ∃ (i : nat) r,
      rows !! i = Some r ∧ Member.uuid r = "2"
      ∧ ("2" ∉ Member.uuid <$> take i rows)
      ∧ _BundleBackend.get_member (H := sample_conditions) "2" (state_file rows)
        = (_BundleBackend.set_access Released (state_file rows), Return (Some r)).
Proof.
  intros rows.
  assert ("2" ∈ Member.uuid <$> rows) as Hin by (right; left).
  split; [reflexivity|]. split; [reflexivity|]. split; [exact Hin|].
  exact (@get_member_first_row sample_conditions "2" rows (state_file rows)
           eq_refl eq_refl Hin).
Defined.

Lemma get_member_after_del_member_other_witness :
  stores (state_file rows_123) rows_123
  ∧ _BundleBackend._Members (state_file rows_123)
    = Some ["uuid"; "name"; "containertype"; "abspath"]
  ∧ tables.plain "3" = true
  ∧ ("3" ∉ ["2"])
  ∧ (_BundleBackend.get_member (H := sample_conditions) "3"
       (_BundleBackend.del_member ["2"] false (state_file rows_123)).1).2
    = Return (Some (Member.mk "3" "C" Sim "/c")).
Proof.
  assert ("3" ∉ ["2"]) as Hother.
  { apply (bool_decide_unpack _). vm_compute. exact I. }
  split; [reflexivity|]. split; [reflexivity|]. split; [reflexivity|].
  split; [exact Hother|].
  rewrite (@get_member_after_del_member_other sample_conditions ["2"] "3" rows_123
             ["uuid"; "name"; "containertype"; "abspath"] (state_file rows_123)
             eq_refl eq_refl eq_refl Hother).
  reflexivity.
Defined.

Lemma get_member_after_del_member_witness :
  stores (state_file rows_123) rows_123
  ∧ _BundleBackend._Members (state_file rows_123)
    = Some ["uuid"; "name"; "containertype"; "abspath"]
  ∧ _BundleBackend.logger (state_file rows_123) = Some []
  ∧ tables.plain "2" = true
  ∧ ("2" ∈ ["2"])
  ∧ (_BundleBackend.get_member (H := sample_conditions) "2"
       (_BundleBackend.del_member ["2"] false (state_file rows_123)).1).2
    = Return None.
Proof.
  assert ("2" ∈ ["2"]) as Hin by left.
  split; [reflexivity|]. split; [reflexivity|]. split; [reflexivity|].
  split; [reflexivity|]. split; [exact Hin|].
  exact (@get_member_after_del_member sample_conditions ["2"] "2" rows_123
           ["uuid"; "name"; "containertype"; "abspath"] [] (state_file rows_123)
           eq_refl eq_refl eq_refl eq_refl Hin).
Defined.

Lemma reachable_backend_has_no_handle_witness :
  let self := (_BundleBackend.add_member (H := sample_fs) "u1" "A" Sim "./data"
                 _BundleBackend.__init__).1 in
  @reachable sample_fs sample_conditions self
  ∧ _BundleBackend.get_members_uuid self
    = (self, Raise (AttributeError "handle")).
Proof.
  intros self.
  assert (@reachable sample_fs sample_conditions self) as Hreach
    by apply reach_add_member, reach_init.
  split; [exact Hreach|].
  apply (@reachable_backend_has_no_handle sample_fs sample_conditions
           [] false "u1" "abspath" self Hreach).
Defined.

Lemma list_after_add_witness :
  let cs := [container_A; Container.mk "u2" "B" Group "/b"; container_A] in
  NoDup ["u2"]
  ∧ (Bundle._list
       (Bundle.add (H := sample_fs) (VContainer <$> cs)
          (Bundle.mk _BundleBackend.__init__ (Some ["u2"]) (Some []))).1).2
    = Return [container_A].
Proof.
  intros cs. assert (NoDup ["u2"]) as Hnd by apply NoDup_singleton.
  split; [exact Hnd|].
  apply (@list_after_add sample_fs cs ["u2"] [] _BundleBackend.__init__ Hnd).
Defined.

Lemma add_keeps_in_step_witness :
  let containers := [VContainer container_A; VList [VStr "/sims"]] in
  synced empty_bundle []
  ∧ Bundle.add (H := sample_fs) containers empty_bundle
    = ((Bundle.add (H := sample_fs) containers empty_bundle).1, Return tt)
  ∧ synced (Bundle.add (H := sample_fs) containers empty_bundle).1 [].
Proof.
  intros containers.
  assert (synced empty_bundle []) as Hs.
  { exists [], []. repeat split; [apply NoDup_nil_2|reflexivity]. }
  split; [exact Hs|]. split; [reflexivity|].
  apply (@add_keeps_in_step sample_fs containers empty_bundle _ Hs eq_refl).
Defined.

Lemma add_twice_witness :
  let containers := [VContainer container_A; VList [VStr "/sims"]] in
  let self' := (Bundle.add (H := sample_fs) containers empty_bundle).1 in
  Bundle._uuids empty_bundle = Some []
  ∧ Bundle.add (H := sample_fs) containers empty_bundle = (self', Return tt)
  ∧ Bundle.add (H := sample_fs) containers self' = (self', Return tt).
Proof.
  intros containers self'. split; [reflexivity|]. split; [reflexivity|].
  apply (@add_twice sample_fs containers [] empty_bundle self'); reflexivity.
Defined.

(** The scenario of the specification: a path that resolves to two
    entities. *)
Lemma collection_add_registers_in_order_witness :
  let coll := _CollectionBase.mk _BundleBackend.__init__ in
  forallb registrable [VStr "/sims"] = true
  ∧ NoDup ((Member.uuid <$> _BundleBackend.table (_CollectionBase.backend coll))
           ++ (Container.uuid <$> registration_order (H := sample_fs) [VStr "/sims"]))
  ∧ ∃ coll',
      _CollectionBase.add (H := sample_fs) [VStr "/sims"] coll = (coll', Return tt)
      ∧ _BundleBackend.table (_CollectionBase.backend coll')
        = [Member.mk "x" "X" Sim "/sims/x"; Member.mk "y" "Y" Group "/sims/y"]
      ∧ _BundleBackend.handle (_CollectionBase.backend coll') = None.
Proof.
  intros coll.
  assert (NoDup ((Member.uuid <$> _BundleBackend.table (_CollectionBase.backend coll))
           ++ (Container.uuid <$> registration_order (H := sample_fs) [VStr "/sims"])))
    as Hnd.
  { apply (bool_decide_unpack _). vm_compute. exact I. }
  split; [reflexivity|]. split; [exact Hnd|].
  exact (@collection_add_registers_in_order sample_fs [VStr "/sims"] coll eq_refl Hnd).
Defined.

Lemma collection_add_stops_at_duplicate_witness :
  let coll := _CollectionBase.mk _BundleBackend.__init__ in
  let B := Container.mk "u2" "B" Group "/b" in
  NoDup ((Member.uuid <$> _BundleBackend.table (_CollectionBase.backend coll))
         ++ (Container.uuid <$> [container_A]))
  ∧ Container.uuid container_A
      ∈ (Member.uuid <$> _BundleBackend.table (_CollectionBase.backend coll))
        ++ (Container.uuid <$> [container_A])
  ∧ ∃ coll',
      _CollectionBase.add (H := sample_fs)
        (VContainer <$> ([container_A] ++ container_A :: [B])) coll
      = (coll', Raise (TypeError "list indices must be integers, not list"))
      ∧ _BundleBackend.table (_CollectionBase.backend coll')
        = [Member.mk "u1" "A" Sim "/home/user/data"]
      ∧ _BundleBackend.handle (_CollectionBase.backend coll') = None.
Proof.
  intros coll B.
  assert (NoDup ((Member.uuid <$> _BundleBackend.table (_CollectionBase.backend coll))
         ++ (Container.uuid <$> [container_A]))) as Hnd
    by apply NoDup_singleton.
  assert (Container.uuid container_A
      ∈ (Member.uuid <$> _BundleBackend.table (_CollectionBase.backend coll))
        ++ (Container.uuid <$> [container_A])) as Hdup by left.
  split; [exact Hnd|]. split; [exact Hdup|].
  exact (@collection_add_stops_at_duplicate sample_fs [container_A] container_A [B]
           coll Hnd Hdup).
Defined.
